(** * DiffusionDB loading script: shard selection and record assembly

    A shallow embedding of [scripts/diffusiondb.py].  The module-level
    tables ([_PART_IDS], [_URLS], [_SAMPLER_DICT]), the class body that
    fills [BUILDER_CONFIGS], [_split_generators] and [_generate_examples]
    are transcribed as executable definitions; the collaborators the
    script calls but does not define (numpy's generator, the download
    manager, the file system, pandas, Python's string parsers) are taken
    as parameters with the contract they have in Python. *)

From Stdlib Require Import List String Ascii ZArith Lia Permutation Bool Arith.
From Stdlib Require Import SpecFloat DecimalString DecimalNat.
Import ListNotations.
Open Scope string_scope.

Set Warnings "-register-all".

(** ** Python values and exceptions *)

(** A Python [float] is an IEEE 754 binary64 number. *)
Definition float := spec_float.
Definition prec : Z := 53.
Definition emax : Z := 1024.

(** The dyadic number [m * 2^e] rounded to binary64. *)
Definition float_of_dyadic (m e : Z) : float := binary_normalize prec emax m e false.

(** The values [json.load] and a data-frame cell can hold.  A [PDict]
    carries the key/value pairs in the order they were inserted; a later
    pair with a key seen before overwrites the value and keeps the place
    of the first one (see [dict_keys] and [dict_get]). *)
Inductive pyval : Type :=
| PNone
| PBool (b : bool)
| PInt (z : Z)
| PFloat (f : float)
| PStr (s : string)
| PList (l : list pyval)
| PDict (d : list (string * pyval)).

Inductive exn : Type :=
| KeyError (key : pyval)
| IndexError
| TypeError
| ValueError
| OverflowError
| AssertionError
| FileNotFoundError (path : string)
| ExternalError (what : string).

(** The error names of the specification, as the exceptions the script
    lets escape. *)
Definition UnknownSamplerCode (code : Z) : exn := KeyError (PInt code).
Definition MissingAsset (path : string) : exn := FileNotFoundError path.

(** ** Expressions that may raise *)

Inductive result (A : Type) : Type :=
| Ok (a : A)
| Err (e : exn).
Arguments Ok {A} a.
Arguments Err {A} e.

Definition rbind {A B} (r : result A) (k : A -> result B) : result B :=
  match r with
  | Ok a => k a
  | Err e => Err e
  end.

Declare Scope result_scope.
Delimit Scope result_scope with result.
Notation "x <- r ;; k" := (rbind r (fun x => k))
  (at level 61, r at next level, right associativity) : result_scope.

(** ** Generators

    A generator is observed through the records it yields, in order, and
    the way it ends: exhausted ([None]) or by an exception. *)
Definition Gen (Y : Type) : Type := (list Y * option exn)%type.

Definition gen_done {Y} : Gen Y := ([], None).
Definition gen_raise {Y} (e : exn) : Gen Y := ([], Some e).
Definition gen_yield {Y} (y : Y) : Gen Y := ([y], None).

(** Run [g1]; when it ends without an exception, go on with [g2]. *)
Definition gen_seq {Y} (g1 g2 : Gen Y) : Gen Y :=
  match g1 with
  | (ys, None) => ((ys ++ fst g2)%list, snd g2)
  | (ys, Some e) => (ys, Some e)
  end.

(** [for x in xs: body x] *)
Fixpoint gen_for {X Y} (xs : list X) (body : X -> Gen Y) : Gen Y :=
  match xs with
  | [] => gen_done
  | x :: xs' => gen_seq (body x) (gen_for xs' body)
  end.

(** Evaluate an expression, then go on with its value or propagate. *)
Definition gen_eval {X Y} (r : result X) (k : X -> Gen Y) : Gen Y :=
  match r with
  | Ok x => k x
  | Err e => gen_raise e
  end.

(** ** Sequences, strings and dictionaries *)

(** [range(a, b)] *)
Definition range (a b : nat) : list nat := seq a (b - a).

(** [l[i:j]] for indices that are not negative (out-of-range bounds are
    clamped, as Python does). *)
Definition slice {A} (l : list A) (i j : nat) : list A := firstn (j - i) (skipn i l).

(** [l[k]] for an index that is not negative. *)
Definition list_getitem {A} (l : list A) (k : nat) : result A :=
  match nth_error l k with
  | Some a => Ok a
  | None => Err IndexError
  end.

(** [f"{n}"] *)
Definition str_of_nat (n : nat) : string := NilEmpty.string_of_uint (Nat.to_uint n).

Fixpoint zeros (n : nat) : string :=
  match n with
  | O => ""
  | S n' => String "0" (zeros n')
  end.

(** [f"{n:06}"]: zero-padded to at least six characters. *)
Definition str_of_nat_06 (n : nat) : string :=
  let s := str_of_nat n in zeros (6 - String.length s) ++ s.

(** The keys of a dictionary, in insertion order. *)
Fixpoint dict_keys {V} (d : list (string * V)) : list string :=
  match d with
  | [] => []
  | (k, _) :: d' => k :: filter (fun k' => negb (k' =? k)) (dict_keys d')
  end.

(** The value bound to a key: the last one inserted. *)
Fixpoint dict_get {V} (d : list (string * V)) (k : string) : option V :=
  match d with
  | [] => None
  | (k', v) :: d' =>
      match dict_get d' k with
      | Some v' => Some v'
      | None => if k' =? k then Some v else None
      end
  end.

(** [d[k]] *)
Definition dict_getitem (d : list (string * pyval)) (k : string) : result pyval :=
  match dict_get d k with
  | Some v => Ok v
  | None => Err (KeyError (PStr k))
  end.

(** [os.path.join(a, b)] (posixpath). *)
Definition starts_with_slash (s : string) : bool :=
  match s with
  | String c _ => Ascii.eqb c "/"
  | EmptyString => false
  end.

Fixpoint ends_with_slash (s : string) : bool :=
  match s with
  | EmptyString => false
  | String c EmptyString => Ascii.eqb c "/"
  | String _ s' => ends_with_slash s'
  end.

Definition join (a b : string) : string :=
  if starts_with_slash b then b
  else if (a =? "") || ends_with_slash a then a ++ b
  else a ++ "/" ++ b.

(** [os.path.basename] and [json.dump] are imported and never called. *)

(** ** Module-level tables *)

Definition _PART_IDS : list nat := range 1 2001.

(** [hf_hub_url(repo_id, filename=...)]; the comment above [_URLS] gives
    the address it resolves to. *)
Definition hf_hub_url (repo_id filename : string) : string :=
  "https://huggingface.co/" ++ repo_id ++ "/resolve/main/" ++ filename.

Inductive url_key : Type :=
| part (i : nat)
| metadata.

Definition url_key_eqb (a b : url_key) : bool :=
  match a, b with
  | part i, part j => Nat.eqb i j
  | metadata, metadata => true
  | _, _ => false
  end.

Definition url_key_val (k : url_key) : pyval :=
  match k with
  | part i => PInt (Z.of_nat i)
  | metadata => PStr "metadata"
  end.

Definition part_url (i : nat) : string :=
  hf_hub_url "datasets/poloclub/diffusiondb" ("images/part-" ++ str_of_nat_06 i ++ ".zip").

Definition metadata_url : string :=
  hf_hub_url "datasets/poloclub/diffusiondb" "metadata.parquet".

Definition _URLS : list (url_key * string) :=
  (map (fun i => (part i, part_url i)) _PART_IDS ++ [(metadata, metadata_url)])%list.

(** [_URLS[k]] *)
Definition _URLS_getitem (k : url_key) : result string :=
  match find (fun e => url_key_eqb (fst e) k) _URLS with
  | Some e => Ok (snd e)
  | None => Err (KeyError (url_key_val k))
  end.

Definition _SAMPLER_DICT : list (Z * string) :=
  [ (1, "ddim");
    (2, "plms");
    (3, "k_euler");
    (4, "k_euler_ancestral");
    (5, "ddik_heunm");
    (6, "k_dpm_2");
    (7, "k_dpm_2_ancestral");
    (8, "k_lms");
    (9, "others") ]%Z.

(** [_SAMPLER_DICT[code]] *)
Definition _SAMPLER_DICT_getitem (code : Z) : result string :=
  match find (fun e => Z.eqb (fst e) code) _SAMPLER_DICT with
  | Some e => Ok (snd e)
  | None => Err (KeyError (PInt code))
  end.

(** ** Configurations *)

Record DiffusionDBConfig : Type := {
  name : string;
  part_ids : list nat;
  description : string
}.

(** [f"{num_k}k" if num_k < 1000 else f"{num_k // 1000}m"] *)
Definition num_k_str (num_k : nat) : string :=
  if (num_k <? 1000)%nat then str_of_nat num_k ++ "k"
  else str_of_nat (num_k / 1000) ++ "m".

Set Implicit Arguments.

Section Registry.

(** numpy's global generator: its state, and [permutation(n)], which
    returns the numbers [0 .. n-1] in some order and the next state. *)
Variable rng : Type.
Variable permutation : rng -> nat -> list nat * rng.

(** [np.random.choice(a, size, replace=False).tolist()]: the first
    [size] entries of a permutation of the positions of [a]. *)
Definition choice (a : list nat) (size : nat) (s : rng) : result (list nat) * rng :=
  if (List.length a <? size)%nat then (Err ValueError, s)
  else
    let (idx, s') := permutation s (List.length a) in
    (Ok (map (fun i => nth i a 0) (firstn size idx)), s').

(** The class body runs with the list being built and the generator
    state; an exception ends it. *)
Record class_state : Type := {
  configs : list DiffusionDBConfig;
  np_random : rng
}.

Definition Body (A : Type) : Type := class_state -> result (A * class_state).

Definition ret {A} (a : A) : Body A := fun st => Ok (a, st).

Definition bind {A B} (m : Body A) (k : A -> Body B) : Body B :=
  fun st =>
    match m st with
    | Ok (a, st') => k a st'
    | Err e => Err e
    end.

Declare Scope body_scope.
Delimit Scope body_scope with body.
Notation "x <- m ;; k" := (bind m (fun x => k))
  (at level 61, m at next level, right associativity) : body_scope.
Notation "m ;; k" := (bind m (fun _ => k))
  (at level 61, right associativity) : body_scope.

Definition append (c : DiffusionDBConfig) : Body unit :=
  fun st => Ok (tt, {| configs := (configs st ++ [c])%list; np_random := np_random st |}).

Definition random_choice (a : list nat) (size : nat) : Body (list nat) :=
  fun st =>
    match choice a size (np_random st) with
    | (Ok l, s') => Ok (l, {| configs := configs st; np_random := s' |})
    | (Err e, _) => Err e
    end.

Fixpoint for_ {X} (xs : list X) (body : X -> Body unit) : Body unit :=
  match xs with
  | [] => ret tt
  | x :: xs' => (body x ;; for_ xs' body)%body
  end.

(** One turn of the inner loop. *)
Definition config_turn (num_k : nat) (sampling : string) : Body unit :=
  let num_k_str := num_k_str num_k in
  if sampling =? "random" then
    let cur_name := "random_" ++ num_k_str in
    let cur_description :=
      "Random " ++ num_k_str ++ " images with their prompts and parameters" in
    (part_ids <- random_choice _PART_IDS num_k ;;
     append {| name := cur_name;
               part_ids := part_ids;
               description := cur_description |})%body
  else
    let cur_name := "first_" ++ num_k_str in
    let cur_description :=
      "The first " ++ num_k_str
      ++ " images in this dataset with their prompts and parameters" in
    let part_ids := slice _PART_IDS 1 (num_k + 1) in
    append {| name := cur_name;
              part_ids := part_ids;
              description := cur_description |}.

Definition class_body : Body unit :=
  (for_ [1; 5; 10; 50; 100; 500; 1000] (fun num_k =>
     for_ ["first"; "random"] (fun sampling =>
       config_turn num_k sampling)) ;;
   append {| name := "all";
             part_ids := _PART_IDS;
             description := "All images with their prompts and parameters" |} ;;
   append {| name := "text_only";
             part_ids := [];
             description := "Only include all prompts and parameters (no image)" |})%body.

(** The generator state after [n] samplings, and the permutation the
    next sampling draws. *)
Definition state_after (n : nat) (s0 : rng) : rng :=
  Nat.iter n (fun s => snd (permutation s (List.length _PART_IDS))) s0.

Definition draw (n : nat) (s0 : rng) : list nat :=
  fst (permutation (state_after n s0) (List.length _PART_IDS)).

(** [DiffusionDB.BUILDER_CONFIGS] once the class has been created, from
    the generator state at import time. *)
Definition BUILDER_CONFIGS (s0 : rng) : result (list DiffusionDBConfig) :=
  match class_body {| configs := []; np_random := s0 |} with
  | Ok (_, st) => Ok (configs st)
  | Err e => Err e
  end.

End Registry.

Unset Implicit Arguments.

Definition DEFAULT_CONFIG_NAME : string := "random_1k".

(** The entries the two branches of [config_turn] append. *)
Definition first_config (num_k : nat) : DiffusionDBConfig :=
  {| name := "first_" ++ num_k_str num_k;
     part_ids := slice _PART_IDS 1 (num_k + 1);
     description :=
       "The first " ++ num_k_str num_k
       ++ " images in this dataset with their prompts and parameters" |}.

Definition random_config (num_k : nat) (idx : list nat) : DiffusionDBConfig :=
  {| name := "random_" ++ num_k_str num_k;
     part_ids := map (fun i => nth i _PART_IDS 0) (firstn num_k idx);
     description :=
       "Random " ++ num_k_str num_k ++ " images with their prompts and parameters" |}.

Definition all_config : DiffusionDBConfig :=
  {| name := "all";
     part_ids := _PART_IDS;
     description := "All images with their prompts and parameters" |}.

Definition text_only_config : DiffusionDBConfig :=
  {| name := "text_only";
     part_ids := [];
     description := "Only include all prompts and parameters (no image)" |}.

(** Two generators to run the class body with: one that leaves the
    positions in order, one that reverses them. *)
Definition identity_permutation (s : unit) (n : nat) : list nat * unit := (seq 0 n, s).
Definition reversing_permutation (s : nat) (n : nat) : list nat * nat := (rev (seq 0 n), S s).

(** The builder picks the configuration by its name (the framework
    refuses a catalog with a repeated name, and an unknown name). *)
Definition find_config (cs : list DiffusionDBConfig) (n : string) : result DiffusionDBConfig :=
  match find (fun c => name c =? n) cs with
  | Some c => Ok c
  | None => Err ValueError
  end.

(** The shard ids a configuration name stands for. *)
Definition resolve (cs : list DiffusionDBConfig) (n : string) : result (list nat) :=
  rbind (find_config cs n) (fun c => Ok (part_ids c)).

(** ** Built-in conversions and subscripts *)

(** What the script reaches outside itself while it fetches and reads a
    split.  [int_of_str] and [float_of_str] are [int(s)] and [float(s)]
    on a string ([None]: the string is not a number, [ValueError]);
    [download_and_extract] and [download] are the download manager's;
    [load_json p] is [load(open(p, "r", encoding="utf8"))]; [read_bytes p]
    is [open(p, "rb").read()]; [read_parquet] is pandas', giving the rows
    in file order, each a mapping from column name to cell. *)
Record Runtime : Type := {
  int_of_str : string -> option Z;
  float_of_str : string -> option float;
  download_and_extract : string -> result string;
  download : string -> result string;
  load_json : string -> result pyval;
  read_bytes : string -> result (list Byte.byte);
  read_parquet : string -> result (list (list (string * pyval)))
}.

Definition Z_of_bool (b : bool) : Z := if b then 1%Z else 0%Z.

(** [int(f)] on a float: truncation towards zero. *)
Definition trunc (f : float) : result Z :=
  match f with
  | S754_zero _ => Ok 0%Z
  | S754_infinity _ => Err OverflowError
  | S754_nan => Err ValueError
  | S754_finite s m e =>
      let a := Z.shiftl (Z.pos m) e in
      Ok (if s then Z.opp a else a)
  end.

(** [float(z)] on an integer: the nearest binary64 number, ties to even. *)
Definition float_of_Z (z : Z) : result float :=
  match binary_normalize prec emax z 0 false with
  | S754_infinity _ => Err OverflowError
  | f => Ok f
  end.

(** [int(v)] *)
Definition py_int (w : Runtime) (v : pyval) : result Z :=
  match v with
  | PBool b => Ok (Z_of_bool b)
  | PInt z => Ok z
  | PFloat f => trunc f
  | PStr s =>
      match int_of_str w s with
      | Some z => Ok z
      | None => Err ValueError
      end
  | PNone | PList _ | PDict _ => Err TypeError
  end.

(** [float(v)] *)
Definition py_float (w : Runtime) (v : pyval) : result float :=
  match v with
  | PBool b => float_of_Z (Z_of_bool b)
  | PInt z => float_of_Z z
  | PFloat f => Ok f
  | PStr s =>
      match float_of_str w s with
      | Some f => Ok f
      | None => Err ValueError
      end
  | PNone | PList _ | PDict _ => Err TypeError
  end.

Fixpoint chars (s : string) : list string :=
  match s with
  | EmptyString => []
  | String c s' => String c EmptyString :: chars s'
  end.

(** [l[i]] for an integer [i], counted from the end when negative. *)
Definition seq_getitem {A} (l : list A) (i : Z) : result A :=
  let n := Z.of_nat (List.length l) in
  let j := if (i <? 0)%Z then (i + n)%Z else i in
  if ((0 <=? j) && (j <? n))%Z then list_getitem l (Z.to_nat j)
  else Err IndexError.

(** [v[k]] *)
Definition subscript (v k : pyval) : result pyval :=
  match v, k with
  | PDict d, PStr s => dict_getitem d s
  | PDict _, (PList _ | PDict _) => Err TypeError
  | PDict _, _ => Err (KeyError k)
  | PList l, PInt i => seq_getitem l i
  | PList l, PBool b => seq_getitem l (Z_of_bool b)
  | PStr s, PInt i => rbind (seq_getitem (chars s) i) (fun c => Ok (PStr c))
  | PStr s, PBool b => rbind (seq_getitem (chars s) (Z_of_bool b)) (fun c => Ok (PStr c))
  | _, _ => Err TypeError
  end.

(** The values [for x in v] goes through. *)
Definition py_iter (v : pyval) : result (list pyval) :=
  match v with
  | PDict d => Ok (map PStr (dict_keys d))
  | PList l => Ok l
  | PStr s => Ok (map PStr (chars s))
  | _ => Err TypeError
  end.

(** [join(dir, v)]: the second argument has to be a string. *)
Definition py_join (dir : string) (v : pyval) : result string :=
  match v with
  | PStr s => Ok (join dir s)
  | _ => Err TypeError
  end.

(** ** Examples *)

Record ImagePayload : Type := {
  path : string;
  bytes : list Byte.byte
}.

(** The two shapes of record the generator yields. *)
Inductive Example : Type :=
| ImageExample (image : ImagePayload) (prompt : pyval) (seed step : Z)
               (cfg : float) (sampler : pyval)
| TextExample (image_name prompt part_id seed step cfg : pyval) (sampler : string).

Definition sampler_of (ex : Example) : pyval :=
  match ex with
  | ImageExample _ _ _ _ _ sa => sa
  | TextExample _ _ _ _ _ _ sa => PStr sa
  end.

(** ** The builder *)

Record gen_kwargs : Type := {
  data_dirs : list string;
  json_paths : list string
}.

Section Builder.

Variable w : Runtime.

(** The loop of [_split_generators] over the part ids, with the two
    lists it appends to. *)
Fixpoint fetch_parts (ids : list nat) (dirs jsons : list string)
  : result (list string * list string) :=
  match ids with
  | [] => Ok (dirs, jsons)
  | cur_part_id :: ids' =>
      (cur_url <- _URLS_getitem (part cur_part_id) ;;
       data_dir <- download_and_extract w cur_url ;;
       fetch_parts ids'
         (dirs ++ [data_dir])%list
         (jsons ++ [join data_dir ("part-" ++ str_of_nat_06 cur_part_id ++ ".json")])%list
      )%result
  end.

(** The keyword arguments of the one split (train) it returns. *)
Definition _split_generators (config : DiffusionDBConfig) : result gen_kwargs :=
  (dj <- fetch_parts (part_ids config) [] [] ;;
   if name config =? "text_only" then
     (url <- _URLS_getitem metadata ;;
      p <- download w url ;;
      Ok {| data_dirs := [p]; json_paths := snd dj |})
   else
     Ok {| data_dirs := fst dj; json_paths := snd dj |})%result.

(** The pair a row of the consolidated table is turned into. *)
Definition text_record (row : list (string * pyval)) : result (pyval * Example) :=
  (key <- dict_getitem row "image_name" ;;
   image_name <- dict_getitem row "image_name" ;;
   prompt <- dict_getitem row "prompt" ;;
   part_id <- dict_getitem row "part_id" ;;
   seed <- dict_getitem row "seed" ;;
   step <- dict_getitem row "step" ;;
   cfg <- dict_getitem row "cfg" ;;
   sa <- dict_getitem row "sampler" ;;
   code <- py_int w sa ;;
   sampler <- _SAMPLER_DICT_getitem code ;;
   Ok (key, TextExample image_name prompt part_id seed step cfg sampler))%result.

(** The pair an entry of a shard's sidecar is turned into. *)
Definition image_record (cur_data_dir : string) (json_data img_name : pyval)
  : result (pyval * Example) :=
  (img_params <- subscript json_data img_name ;;
   img_path <- py_join cur_data_dir img_name ;;
   content <- read_bytes w img_path ;;
   p <- subscript img_params (PStr "p") ;;
   se <- subscript img_params (PStr "se") ;;
   seed <- py_int w se ;;
   st <- subscript img_params (PStr "st") ;;
   step <- py_int w st ;;
   c <- subscript img_params (PStr "c") ;;
   cfg <- py_float w c ;;
   sa <- subscript img_params (PStr "sa") ;;
   Ok (img_name,
       ImageExample {| path := img_path; bytes := content |} p seed step cfg sa))%result.

(** The records of one shard: the body of the loop over the extracted
    folders, from the parsing of the sidecar on. *)
Definition shard_examples (cur_data_dir cur_json_path : string) : Gen (pyval * Example) :=
  gen_eval (load_json w cur_json_path) (fun json_data =>
  gen_eval (py_iter json_data) (fun img_names =>
  gen_for img_names (fun img_name =>
    gen_eval (image_record cur_data_dir json_data img_name) gen_yield))).

Definition _generate_examples (config : DiffusionDBConfig)
           (data_dirs json_paths : list string) : Gen (pyval * Example) :=
  if name config =? "text_only" then
    gen_eval (list_getitem data_dirs 0) (fun parquet_path =>
    gen_eval (read_parquet w parquet_path) (fun metadata_df =>
    gen_for metadata_df (fun row =>
      gen_eval (text_record row) gen_yield)))
  else
    let num_data_dirs := List.length data_dirs in
    if negb (num_data_dirs =? List.length json_paths)%nat then gen_raise AssertionError
    else
      gen_for (range 0 num_data_dirs) (fun k =>
        gen_eval (list_getitem data_dirs k) (fun cur_data_dir =>
        gen_eval (list_getitem json_paths k) (fun cur_json_path =>
        shard_examples cur_data_dir cur_json_path))).

(** The framework asks the builder for its split and then pulls the
    records of that split's generator. *)
Definition train_examples (config : DiffusionDBConfig) : Gen (pyval * Example) :=
  gen_eval (_split_generators config) (fun kw =>
    _generate_examples config (data_dirs kw) (json_paths kw)).

End Builder.

(** What numpy promises of [permutation]. *)
Definition permutation_contract {rng} (permutation : rng -> nat -> list nat * rng) : Prop :=
  forall s n, Permutation (fst (permutation s n)) (seq 0 n).

(** ** The records the specification describes *)

(** The documented sampler tokens, by numeric code. *)
Definition canonical_token (code : Z) : option string :=
  match code with
  | 1 => Some "ddim"
  | 2 => Some "plms"
  | 3 => Some "k_euler"
  | 4 => Some "k_euler_ancestral"
  | 5 => Some "ddik_heunm"
  | 6 => Some "k_dpm_2"
  | 7 => Some "k_dpm_2_ancestral"
  | 8 => Some "k_lms"
  | 9 => Some "others"
  | _ => None
  end%Z.

Definition canonical_tokens : list string :=
  [ "ddim"; "plms"; "k_euler"; "k_euler_ancestral"; "ddik_heunm";
    "k_dpm_2"; "k_dpm_2_ancestral"; "k_lms"; "others" ].

(** A row of the consolidated table with its seven cells. *)
Record RowCells (row : list (string * pyval))
       (image_name prompt part_id seed step cfg sa : pyval) : Prop := {
  cell_image_name : dict_get row "image_name" = Some image_name;
  cell_prompt : dict_get row "prompt" = Some prompt;
  cell_part_id : dict_get row "part_id" = Some part_id;
  cell_seed : dict_get row "seed" = Some seed;
  cell_step : dict_get row "step" = Some step;
  cell_cfg : dict_get row "cfg" = Some cfg;
  cell_sampler : dict_get row "sampler" = Some sa
}.

(** The text example of a row: keyed by its image name, the cells
    unchanged, the sampler code replaced by its token. *)
Inductive TextExampleOf (w : Runtime) (row : list (string * pyval))
  : pyval * Example -> Prop :=
| TextExampleOf_intro image_name prompt part_id seed step cfg sa code token :
    RowCells row image_name prompt part_id seed step cfg sa ->
    py_int w sa = Ok code ->
    canonical_token code = Some token ->
    TextExampleOf w row
      (image_name, TextExample image_name prompt part_id seed step cfg token).

(** The parameters of an image in a sidecar, under their short names. *)
Record ImageParams (img_params : pyval) (p se st c sa : pyval) : Prop := {
  param_p : subscript img_params (PStr "p") = Ok p;
  param_se : subscript img_params (PStr "se") = Ok se;
  param_st : subscript img_params (PStr "st") = Ok st;
  param_c : subscript img_params (PStr "c") = Ok c;
  param_sa : subscript img_params (PStr "sa") = Ok sa
}.

(** The image example of a filename of a sidecar: keyed by the filename,
    with the bytes of the file of that name in the extracted folder, the
    seed and the step through [int], the cfg through [float], the prompt
    and the sampler as they are. *)
Inductive ImageExampleOf (w : Runtime) (dir : string) (sidecar : list (string * pyval))
          (img_name : string) : pyval * Example -> Prop :=
| ImageExampleOf_intro img_params content p se st c sa seed step cfg :
    dict_get sidecar img_name = Some img_params ->
    read_bytes w (join dir img_name) = Ok content ->
    ImageParams img_params p se st c sa ->
    py_int w se = Ok seed ->
    py_int w st = Ok step ->
    py_float w c = Ok cfg ->
    ImageExampleOf w dir sidecar img_name
      (PStr img_name,
       ImageExample {| path := join dir img_name; bytes := content |} p seed step cfg sa).

(** The first conversion of an image's parameters that is not defined,
    with the exception it raises. *)
Inductive ConversionFails (w : Runtime) (img_params : pyval) : exn -> Prop :=
| seed_fails p se st c sa e :
    ImageParams img_params p se st c sa ->
    py_int w se = Err e ->
    ConversionFails w img_params e
| step_fails p se st c sa seed e :
    ImageParams img_params p se st c sa ->
    py_int w se = Ok seed ->
    py_int w st = Err e ->
    ConversionFails w img_params e
| cfg_fails p se st c sa seed step e :
    ImageParams img_params p se st c sa ->
    py_int w se = Ok seed ->
    py_int w st = Ok step ->
    py_float w c = Err e ->
    ConversionFails w img_params e.

(** A shard as it lies on disk once fetched. *)
Record Shard : Type := {
  shard_id : nat;
  shard_dir : string;
  shard_sidecar : list (string * pyval)
}.

Definition shard_json_path (s : Shard) : string :=
  join (shard_dir s) ("part-" ++ str_of_nat_06 (shard_id s) ++ ".json").

Record Fetched (w : Runtime) (s : Shard) : Prop := {
  fetched_id : 1 <= shard_id s <= 2000;
  fetched_dir : download_and_extract w (part_url (shard_id s)) = Ok (shard_dir s);
  fetched_sidecar : load_json w (shard_json_path s) = Ok (PDict (shard_sidecar s))
}.

(** ** Runtimes to run the builder on *)

Definition lookup_path {A} (files : list (string * A)) (p : string) : result A :=
  match find (fun e => fst e =? p) files with
  | Some e => Ok (snd e)
  | None => Err (FileNotFoundError p)
  end.

Definition lookup_url (cache : list (string * string)) (url : string) : result string :=
  match find (fun e => fst e =? url) cache with
  | Some e => Ok (snd e)
  | None => Err (ExternalError url)
  end.

(** Plain decimal integers, with an optional minus sign.  [int] on a
    string reads these the same way and accepts more (a plus sign, blanks
    around the number, underscores between digits); the runtimes below
    only meet strings of the plain form or strings that are no number. *)
Definition decimal_int (s : string) : option Z :=
  option_map Z.of_int (NilZero.int_of_string s).

(** A runtime over a download cache, the parsed sidecars, the image files
    and the tables found at given paths; [float] on a string reads the
    listed literals. *)
Definition disk_runtime (cache : list (string * string))
           (sidecars : list (string * pyval))
           (images : list (string * list Byte.byte))
           (tables : list (string * list (list (string * pyval))))
           (float_literals : list (string * float)) : Runtime :=
  {| int_of_str := decimal_int;
     float_of_str := fun s => option_map snd (find (fun e => fst e =? s) float_literals);
     download_and_extract := lookup_url cache;
     download := lookup_url cache;
     load_json := lookup_path sidecars;
     read_bytes := lookup_path images;
     read_parquet := lookup_path tables |}.

Definition a_png : list Byte.byte := [Byte.x89; Byte.x50; Byte.x4e; Byte.x47; Byte.x0a].
Definition b_png : list Byte.byte := [Byte.x89; Byte.x50; Byte.x4e; Byte.x47; Byte.x0b].

(** The sidecar and the table of the specification's two test cases. *)
Definition spec_sidecar : pyval :=
  PDict [ ("a.png", PDict [ ("p", PStr "cat"); ("se", PInt 1); ("st", PInt 20);
                            ("c", PFloat (float_of_dyadic 15 (-1))); ("sa", PStr "ddim") ]);
          ("b.png", PDict [ ("p", PStr "dog"); ("se", PInt 2); ("st", PInt 30);
                            ("c", PFloat (float_of_dyadic 8 0)); ("sa", PStr "plms") ]) ].

Definition spec_table : list (list (string * pyval)) :=
  [ [ ("image_name", PStr "x"); ("prompt", PStr "dog"); ("part_id", PInt 3);
      ("seed", PInt 9); ("step", PInt 10); ("cfg", PFloat (float_of_dyadic 6 0));
      ("sampler", PInt 2) ] ].

Definition spec_cache : list (string * string) :=
  [ (part_url 2, "/cache/part-000002"); (metadata_url, "/cache/metadata.parquet") ].

Definition spec_runtime : Runtime :=
  disk_runtime spec_cache
    [ ("/cache/part-000002/part-000002.json", spec_sidecar) ]
    [ ("/cache/part-000002/a.png", a_png); ("/cache/part-000002/b.png", b_png) ]
    [ ("/cache/metadata.parquet", spec_table) ]
    [].

(** The same shard with [b.png] gone from the extracted folder. *)
Definition missing_b_runtime : Runtime :=
  disk_runtime spec_cache
    [ ("/cache/part-000002/part-000002.json", spec_sidecar) ]
    [ ("/cache/part-000002/a.png", a_png) ]
    []
    [].

(** A shard whose sidecar names a sampler outside the nine tokens. *)
Definition heun_sidecar : pyval :=
  PDict [ ("a.png", PDict [ ("p", PStr "cat"); ("se", PInt 1); ("st", PInt 20);
                            ("c", PFloat (float_of_dyadic 15 (-1))); ("sa", PStr "k_heun") ]) ].

Definition heun_runtime : Runtime :=
  disk_runtime spec_cache
    [ ("/cache/part-000002/part-000002.json", heun_sidecar) ]
    [ ("/cache/part-000002/a.png", a_png) ]
    []
    [].

(** A shard whose sidecar stores its numbers as strings, and a second
    image whose step is not a number. *)
Definition quoted_sidecar : pyval :=
  PDict [ ("a.png", PDict [ ("p", PStr "cat"); ("se", PStr "42"); ("st", PStr "20");
                            ("c", PStr "7.5"); ("sa", PInt 3) ]);
          ("b.png", PDict [ ("p", PNone); ("se", PInt 2); ("st", PStr "many");
                            ("c", PInt 8); ("sa", PStr "plms") ]) ].

Definition quoted_runtime : Runtime :=
  disk_runtime spec_cache
    [ ("/cache/part-000002/part-000002.json", quoted_sidecar) ]
    [ ("/cache/part-000002/a.png", a_png); ("/cache/part-000002/b.png", b_png) ]
    []
    [ ("7.5", float_of_dyadic 15 (-1)) ].

(** A table whose second row has a sampler code outside the lookup table. *)
Definition bad_code_table : list (list (string * pyval)) :=
  (spec_table ++
   [ [ ("image_name", PStr "y"); ("prompt", PStr "cat"); ("part_id", PInt 4);
       ("seed", PInt 7); ("step", PInt 50); ("cfg", PFloat (float_of_dyadic 7 0));
       ("sampler", PInt 10) ];
     [ ("image_name", PStr "z"); ("prompt", PStr "owl"); ("part_id", PInt 4);
       ("seed", PInt 8); ("step", PInt 50); ("cfg", PFloat (float_of_dyadic 7 0));
       ("sampler", PInt 1) ] ])%list.

Definition bad_code_runtime : Runtime :=
  disk_runtime spec_cache [] [] [ ("/cache/metadata.parquet", bad_code_table) ] [].

(** The fetched shard of [spec_runtime]. *)
Definition spec_shard : Shard :=
  {| shard_id := 2;
     shard_dir := "/cache/part-000002";
     shard_sidecar :=
       match spec_sidecar with
       | PDict d => d
       | _ => []
       end |}.

(** ** Dataset information *)

Definition _CITATION : string :=
"@article{wangDiffusionDBLargescalePrompt2022,
  title = {{{DiffusionDB}}: {{A}} Large-Scale Prompt Gallery Dataset for Text-to-Image Generative Models},
  author = {Wang, Zijie J. and Montoya, Evan and Munechika, David and Yang, Haoyang and Hoover, Benjamin and Chau, Duen Horng},
  year = {2022},
  journal = {arXiv:2210.14896 [cs]},
  url = {https://arxiv.org/abs/2210.14896}
}
".

Definition _DESCRIPTION : string :=
"
DiffusionDB is the first large-scale text-to-image prompt dataset. It contains 2
million images generated by Stable Diffusion using prompts and hyperparameters
specified by real users. The unprecedented scale and diversity of this
human-actuated dataset provide exciting research opportunities in understanding
the interplay between prompts and generative models, detecting deepfakes, and
designing human-AI interaction tools to help users more easily use these models.
".

Definition _HOMEPAGE : string := "https://poloclub.github.io/diffusiondb".
Definition _LICENSE : string := "CC0 1.0".
Definition _VERSION : string := "0.9.0".

(** The part of the [datasets] package [_info] builds its answer with. *)
Module datasets.

Inductive Feature : Type :=
| Value (dtype : string)
| Image.

Record DatasetInfo : Type := {
  description : string;
  features : list (string * Feature);
  supervised_keys : option (string * string);
  homepage : string;
  license : string;
  citation : string
}.

End datasets.

Definition _info (config : DiffusionDBConfig) : datasets.DatasetInfo :=
  let features :=
    if name config =? "text_only" then
      [ ("image_name", datasets.Value "string");
        ("prompt", datasets.Value "string");
        ("part_id", datasets.Value "int64");
        ("seed", datasets.Value "int64");
        ("step", datasets.Value "int64");
        ("cfg", datasets.Value "float32");
        ("sampler", datasets.Value "string") ]
    else
      [ ("image", datasets.Image);
        ("prompt", datasets.Value "string");
        ("seed", datasets.Value "int64");
        ("step", datasets.Value "int64");
        ("cfg", datasets.Value "float32");
        ("sampler", datasets.Value "string") ] in
  {| datasets.description := _DESCRIPTION;
     datasets.features := features;
     datasets.supervised_keys := None;
     datasets.homepage := _HOMEPAGE;
     datasets.license := _LICENSE;
     datasets.citation := _CITATION |}.

(** The keys of the dictionary an example is yielded as, in the order the
    two [yield] statements write them. *)
Definition example_keys (ex : Example) : list string :=
  match ex with
  | ImageExample _ _ _ _ _ _ =>
      [ "image"; "prompt"; "seed"; "step"; "cfg"; "sampler" ]
  | TextExample _ _ _ _ _ _ _ =>
      [ "image_name"; "prompt"; "part_id"; "seed"; "step"; "cfg"; "sampler" ]
  end.

(** The columns a row is read by, in the order the text-only branch
    reads them. *)
Definition text_columns : list string :=
  [ "image_name"; "prompt"; "part_id"; "seed"; "step"; "cfg"; "sampler" ].

(** The parameters of an image, in the order the image branch reads them. *)
Definition image_parameters : list string := [ "p"; "se"; "st"; "c"; "sa" ].

(** Reading a string of decimal digits back as a number. *)
Definition decimal_nat (s : string) : option nat :=
  option_map Nat.of_uint (NilEmpty.uint_of_string s).

(** The file name of a shard's sidecar. *)
Definition sidecar_name (i : nat) : string := "part-" ++ str_of_nat_06 i ++ ".json".

(** A decimal numeral with [k] zeros written in front. *)
Fixpoint leading_zeros (k : nat) (d : Decimal.uint) : Decimal.uint :=
  match k with
  | O => d
  | S k' => Decimal.D0 (leading_zeros k' d)
  end.

(** Two runtimes that each hold one half of what [spec_runtime] holds:
    the consolidated table only, and the shard only. *)
Definition table_only_runtime : Runtime :=
  disk_runtime [ (metadata_url, "/cache/metadata.parquet") ] [] []
    [ ("/cache/metadata.parquet", spec_table) ] [].

Definition shard_only_runtime : Runtime :=
  disk_runtime [ (part_url 2, "/cache/part-000002") ]
    [ ("/cache/part-000002/part-000002.json", spec_sidecar) ]
    [ ("/cache/part-000002/a.png", a_png); ("/cache/part-000002/b.png", b_png) ]
    [] [].

(** The first parameter of an image that is not in its dictionary, the
    ones read before it being there and converted. *)
Inductive ParameterMissing (w : Runtime) (d : list (string * pyval)) : string -> Prop :=
| p_missing :
    dict_get d "p" = None ->
    ParameterMissing w d "p"
| se_missing p :
    dict_get d "p" = Some p ->
    dict_get d "se" = None ->
    ParameterMissing w d "se"
| st_missing p se seed :
    dict_get d "p" = Some p ->
    dict_get d "se" = Some se -> py_int w se = Ok seed ->
    dict_get d "st" = None ->
    ParameterMissing w d "st"
| c_missing p se seed st step :
    dict_get d "p" = Some p ->
    dict_get d "se" = Some se -> py_int w se = Ok seed ->
    dict_get d "st" = Some st -> py_int w st = Ok step ->
    dict_get d "c" = None ->
    ParameterMissing w d "c"
| sa_missing p se seed st step c cfg :
    dict_get d "p" = Some p ->
    dict_get d "se" = Some se -> py_int w se = Ok seed ->
    dict_get d "st" = Some st -> py_int w st = Ok step ->
    dict_get d "c" = Some c -> py_float w c = Ok cfg ->
    dict_get d "sa" = None ->
    ParameterMissing w d "sa".

(** A shard whose sidecar is a JSON array, and a table whose second row
    has no seed column. *)
Definition array_runtime : Runtime :=
  disk_runtime spec_cache
    [ ("/cache/part-000002/part-000002.json", PList [PInt 0; PStr "a.png"]) ]
    [ ("/cache/part-000002/a.png", a_png) ]
    [] [].

Definition seedless_row : list (string * pyval) :=
  [ ("image_name", PStr "y"); ("prompt", PStr "cat"); ("part_id", PInt 4);
    ("step", PInt 50); ("cfg", PFloat (float_of_dyadic 7 0)); ("sampler", PInt 1) ].

(** Two shards fetched one after the other: the second has the sidecar
    of the first, but its [b.png] is not in the extracted folder. *)
Definition two_shard_runtime : Runtime :=
  disk_runtime
    [ (part_url 2, "/cache/part-000002"); (part_url 3, "/cache/part-000003") ]
    [ ("/cache/part-000002/part-000002.json", spec_sidecar);
      ("/cache/part-000003/part-000003.json", spec_sidecar) ]
    [ ("/cache/part-000002/a.png", a_png); ("/cache/part-000002/b.png", b_png);
      ("/cache/part-000003/a.png", a_png) ]
    [] [].

(** * Properties *)

(** ** Lists and slices *)

Lemma firstn_seq (n a len : nat) : firstn n (seq a len) = seq a (Nat.min n len).
Proof.
  revert a len. induction n as [|n IH]; intros a [|len]; cbn; try reflexivity.
  now rewrite IH.
Qed.

Lemma length_PART_IDS : List.length _PART_IDS = 2000.
Proof. unfold _PART_IDS, range. now rewrite length_seq. Qed.

Lemma PART_IDS_seq : _PART_IDS = seq 1 2000.
Proof. reflexivity. Qed.

Lemma slice_PART_IDS (num_k : nat) :
  num_k < 2000 -> slice _PART_IDS 1 (num_k + 1) = seq 2 num_k.
Proof.
  intros H. unfold slice. rewrite PART_IDS_seq, skipn_seq, firstn_seq.
  replace (num_k + 1 - 1) with num_k by lia.
  replace (Nat.min num_k (2000 - 1)) with num_k by lia.
  reflexivity.
Qed.

Lemma nth_PART_IDS (i : nat) : i < 2000 -> nth i _PART_IDS 0 = 1 + i.
Proof. intros H. rewrite PART_IDS_seq. now apply seq_nth. Qed.

Lemma map_nth_PART_IDS (n : nat) :
  n <= 2000 -> map (fun i => nth i _PART_IDS 0) (seq 0 n) = seq 1 n.
Proof.
  intros H. rewrite <- seq_shift. apply map_ext_in.
  intros i Hi. apply in_seq in Hi. rewrite nth_PART_IDS; lia.
Qed.

(** ** The catalog *)

Section RegistryFacts.

Variable rng : Type.
Variable permutation : rng -> nat -> list nat * rng.

Lemma config_turn_first num_k st :
  config_turn permutation num_k "first" st
  = Ok (tt, {| configs := (configs st ++ [first_config num_k])%list;
               np_random := np_random st |}).
Proof. reflexivity. Qed.

Lemma config_turn_random num_k st :
  (num_k <=? 2000)%nat = true ->
  config_turn permutation num_k "random" st
  = Ok (tt,
        {| configs :=
             (configs st
              ++ [random_config num_k
                    (fst (permutation (np_random st) (List.length _PART_IDS)))])%list;
           np_random := snd (permutation (np_random st) (List.length _PART_IDS)) |}).
Proof.
  intros H. apply Nat.leb_le in H.
  unfold config_turn. cbn [String.eqb Ascii.eqb Bool.eqb].
  unfold bind, random_choice, choice.
  destruct (Nat.ltb_spec (List.length _PART_IDS) num_k) as [Hlt|_].
  - rewrite length_PART_IDS in Hlt. lia.
  - destruct (permutation (np_random st) (List.length _PART_IDS)) as [idx s'].
    reflexivity.
Qed.

(** The catalog, entry by entry: creating the class never raises. *)
Lemma BUILDER_CONFIGS_eq s0 :
  BUILDER_CONFIGS permutation s0 =
  Ok [ first_config 1; random_config 1 (draw permutation 0 s0);
       first_config 5; random_config 5 (draw permutation 1 s0);
       first_config 10; random_config 10 (draw permutation 2 s0);
       first_config 50; random_config 50 (draw permutation 3 s0);
       first_config 100; random_config 100 (draw permutation 4 s0);
       first_config 500; random_config 500 (draw permutation 5 s0);
       first_config 1000; random_config 1000 (draw permutation 6 s0);
       all_config; text_only_config ].
Proof.
  unfold BUILDER_CONFIGS, class_body.
  cbn [for_]. unfold bind, ret.
  repeat (rewrite config_turn_first; cbv beta iota;
          rewrite config_turn_random by reflexivity; cbv beta iota;
          cbn [configs np_random app]).
  reflexivity.
Qed.

End RegistryFacts.

Lemma resolve_cons_ne c cs n :
  (name c =? n) = false -> resolve (c :: cs) n = resolve cs n.
Proof. intros H. unfold resolve, find_config. cbn [find]. now rewrite H. Qed.

Lemma resolve_cons_eq c cs n :
  (name c =? n) = true -> resolve (c :: cs) n = Ok (part_ids c).
Proof. intros H. unfold resolve, find_config. cbn [find]. now rewrite H. Qed.

Ltac resolve_by_name :=
  repeat (rewrite resolve_cons_ne by reflexivity);
  rewrite resolve_cons_eq by reflexivity.

Ltac each_size H :=
  cbn [In] in H;
  repeat (destruct H as [H|H]; [subst|]); [..|contradiction].

(** ** Shard ids of the sampled configurations *)

Lemma NoDup_firstn {A} (n : nat) (l : list A) : NoDup l -> NoDup (firstn n l).
Proof.
  intros H. rewrite <- (firstn_skipn n l) in H.
  now apply NoDup_app_remove_r in H.
Qed.

Lemma In_firstn {A} (n : nat) (l : list A) (x : A) : In x (firstn n l) -> In x l.
Proof.
  intros H. rewrite <- (firstn_skipn n l). apply in_or_app. now left.
Qed.

Section Sampling.

Variable rng : Type.
Variable permutation : rng -> nat -> list nat * rng.
Hypothesis permutation_ok : permutation_contract permutation.

Lemma draw_perm n s0 : Permutation (draw permutation n s0) (seq 0 2000).
Proof. unfold draw. rewrite length_PART_IDS. apply permutation_ok. Qed.

Lemma draw_length n s0 : List.length (draw permutation n s0) = 2000.
Proof. rewrite (Permutation_length (draw_perm n s0)). apply length_seq. Qed.

Lemma draw_bound n s0 i : In i (draw permutation n s0) -> i < 2000.
Proof.
  intros H. apply (Permutation_in _ (draw_perm n s0)) in H.
  apply in_seq in H. lia.
Qed.

Lemma draw_NoDup n s0 : NoDup (draw permutation n s0).
Proof.
  apply (Permutation_NoDup (Permutation_sym (draw_perm n s0))), seq_NoDup.
Qed.

Lemma random_ids_length num_k n s0 :
  num_k <= 2000 ->
  List.length (part_ids (random_config num_k (draw permutation n s0))) = num_k.
Proof.
  intros H. cbn [part_ids random_config].
  rewrite length_map, length_firstn, draw_length. lia.
Qed.

Lemma random_ids_range num_k n s0 i :
  In i (part_ids (random_config num_k (draw permutation n s0))) -> 1 <= i <= 2000.
Proof.
  cbn [part_ids random_config]. intros H.
  apply in_map_iff in H. destruct H as (j & <- & Hj).
  apply In_firstn, draw_bound in Hj. rewrite nth_PART_IDS; lia.
Qed.

Lemma random_ids_NoDup num_k n s0 :
  NoDup (part_ids (random_config num_k (draw permutation n s0))).
Proof.
  cbn [part_ids random_config].
  apply NoDup_map_NoDup_ForallPairs.
  - intros i j Hi Hj E.
    apply In_firstn, draw_bound in Hi. apply In_firstn, draw_bound in Hj.
    rewrite !nth_PART_IDS in E; lia.
  - apply NoDup_firstn, draw_NoDup.
Qed.

End Sampling.

Lemma reversing_permutation_ok : permutation_contract reversing_permutation.
Proof. intros s n. cbn. apply Permutation_sym, Permutation_rev. Qed.

Lemma identity_permutation_ok : permutation_contract identity_permutation.
Proof. intros s n. cbn. apply Permutation_refl. Qed.

Lemma num_k_strs :
  map num_k_str [1; 5; 10; 50; 100; 500; 1000]
  = ["1k"; "5k"; "10k"; "50k"; "100k"; "500k"; "1m"].
Proof. reflexivity. Qed.

(** C1, as stated, fails: the configuration named first_1k resolves to a
    single shard id, not to 1000 of them. *)
Lemma first_1k_is_one_shard :
  exists cs ids,
    BUILDER_CONFIGS reversing_permutation 0 = Ok cs /\
    resolve cs "first_1k" = Ok ids /\
    ids = [2] /\ List.length ids <> 1000.
Proof.
  exists (match BUILDER_CONFIGS reversing_permutation 0 with Ok cs => cs | Err _ => [] end).
  exists [2]. rewrite BUILDER_CONFIGS_eq.
  split; [reflexivity|]. split; [|split; [reflexivity|cbn; lia]].
  now resolve_by_name.
Qed.

(** C1 (amended): for every policy in first, random and every size, the
    configuration named policy_size resolves to exactly [num_k] shard ids,
    where [num_k] is the advertised number of images counted in thousands
    (1, 5, 10, 50, 100, 500, 1000 ids for 1k, 5k, 10k, 50k, 100k, 500k, 1m):
    a shard holds a thousand images. *)
Theorem resolve_length_is_num_k :
  forall (rng : Type) (permutation : rng -> nat -> list nat * rng),
    permutation_contract permutation ->
    forall (s0 : rng) (num_k : nat) (sampling : string),
      In num_k [1; 5; 10; 50; 100; 500; 1000] ->
      In sampling ["first"; "random"] ->
      map num_k_str [1; 5; 10; 50; 100; 500; 1000]
      = ["1k"; "5k"; "10k"; "50k"; "100k"; "500k"; "1m"] /\
      exists cs ids,
        BUILDER_CONFIGS permutation s0 = Ok cs /\
        resolve cs (sampling ++ "_" ++ num_k_str num_k) = Ok ids /\
        List.length ids = num_k.
Proof.
  intros rng permutation Hp s0 num_k sampling Hk Hs.
  split; [exact num_k_strs|].
  each_size Hs; each_size Hk.
  all: eexists; eexists; (split; [apply BUILDER_CONFIGS_eq|]).
  all: resolve_by_name; (split; [reflexivity|]).
  all: try (apply random_ids_length; [assumption|lia]).
  all: cbn [part_ids first_config]; rewrite slice_PART_IDS by lia; apply length_seq.
Qed.

Lemma resolve_length_is_num_k_witness :
  map num_k_str [1; 5; 10; 50; 100; 500; 1000]
  = ["1k"; "5k"; "10k"; "50k"; "100k"; "500k"; "1m"] /\
  exists cs ids,
    BUILDER_CONFIGS reversing_permutation 0 = Ok cs /\
    resolve cs ("random" ++ "_" ++ num_k_str 5) = Ok ids /\
    List.length ids = 5.
Proof.
  apply (resolve_length_is_num_k nat reversing_permutation
           reversing_permutation_ok 0 5 "random").
  - cbn. tauto.
  - cbn. tauto.
Defined.

(** C2: every first_size configuration resolves to the contiguous block
    [2, 3, ..., num_k + 1] of ids of [1, 2000], which leaves out shard
    id 1; the configuration all starts at id 1, and random_size samples
    the whole id space (when the generator leaves the positions in order,
    it resolves to [1, ..., num_k]). *)
Theorem first_window_skips_id_1 :
  forall (num_k : nat),
    In num_k [1; 5; 10; 50; 100; 500; 1000] ->
    (forall (rng : Type) (permutation : rng -> nat -> list nat * rng) (s0 : rng),
        exists cs,
          BUILDER_CONFIGS permutation s0 = Ok cs /\
          resolve cs ("first_" ++ num_k_str num_k) = Ok (seq 2 num_k) /\
          resolve cs "all" = Ok (seq 1 2000)) /\
    ~ In 1 (seq 2 num_k) /\
    (forall i, In i (seq 2 num_k) -> 1 <= i <= 2000) /\
    In 1 (seq 1 2000) /\
    (exists cs,
        BUILDER_CONFIGS identity_permutation tt = Ok cs /\
        resolve cs ("random_" ++ num_k_str num_k) = Ok (seq 1 num_k) /\
        In 1 (seq 1 num_k)).
Proof.
  intros num_k Hk.
  assert (Hb : 1 <= num_k <= 1000) by (each_size Hk; lia).
  split; [|split; [|split; [|split]]].
  - intros rng permutation s0.
    eexists. split; [apply BUILDER_CONFIGS_eq|]. split.
    + each_size Hk.
      all: resolve_by_name; cbn [part_ids first_config].
      all: now rewrite slice_PART_IDS by lia.
    + now resolve_by_name.
  - rewrite in_seq. lia.
  - intros i Hi. apply in_seq in Hi. lia.
  - apply in_seq. lia.
  - eexists. split; [apply BUILDER_CONFIGS_eq|]. split.
    + each_size Hk.
      all: resolve_by_name; cbn [part_ids random_config].
      all: unfold draw, identity_permutation; cbn [fst].
      all: rewrite length_PART_IDS, firstn_seq.
      all: f_equal; apply map_nth_PART_IDS; lia.
    + apply in_seq. lia.
Qed.

Lemma first_window_skips_id_1_witness :
  (forall (rng : Type) (permutation : rng -> nat -> list nat * rng) (s0 : rng),
      exists cs,
        BUILDER_CONFIGS permutation s0 = Ok cs /\
        resolve cs ("first_" ++ num_k_str 10) = Ok (seq 2 10) /\
        resolve cs "all" = Ok (seq 1 2000)) /\
  ~ In 1 (seq 2 10) /\
  (forall i, In i (seq 2 10) -> 1 <= i <= 2000) /\
  In 1 (seq 1 2000) /\
  (exists cs,
      BUILDER_CONFIGS identity_permutation tt = Ok cs /\
      resolve cs ("random_" ++ num_k_str 10) = Ok (seq 1 10) /\
      In 1 (seq 1 10)).
Proof.
  apply (first_window_skips_id_1 10). cbn. tauto.
Defined.

(** C8: whatever permutations numpy drew while the catalog was built,
    every random_size configuration resolves to ids without a duplicate,
    all of them in [1, 2000]. *)
Theorem random_ids_distinct_in_range :
  forall (rng : Type) (permutation : rng -> nat -> list nat * rng),
    permutation_contract permutation ->
    forall (s0 : rng) (num_k : nat),
      In num_k [1; 5; 10; 50; 100; 500; 1000] ->
      exists cs ids,
        BUILDER_CONFIGS permutation s0 = Ok cs /\
        resolve cs ("random_" ++ num_k_str num_k) = Ok ids /\
        NoDup ids /\
        (forall i, In i ids -> 1 <= i <= 2000).
Proof.
  intros rng permutation Hp s0 num_k Hk.
  each_size Hk.
  all: eexists; eexists; (split; [apply BUILDER_CONFIGS_eq|]).
  all: resolve_by_name; (split; [reflexivity|]).
  all: split; [now apply random_ids_NoDup | intros i; now apply random_ids_range].
Qed.

Lemma random_ids_distinct_in_range_witness :
  exists cs ids,
    BUILDER_CONFIGS reversing_permutation 0 = Ok cs /\
    resolve cs ("random_" ++ num_k_str 500) = Ok ids /\
    NoDup ids /\
    (forall i, In i ids -> 1 <= i <= 2000).
Proof.
  apply (random_ids_distinct_in_range nat reversing_permutation
           reversing_permutation_ok 0 500).
  cbn. tauto.
Defined.

(** C9: the configuration named all resolves to exactly
    [1, 2, ..., 2000], in ascending order, whatever the generator did. *)
Theorem resolve_all :
  forall (rng : Type) (permutation : rng -> nat -> list nat * rng) (s0 : rng),
    exists cs ids,
      BUILDER_CONFIGS permutation s0 = Ok cs /\
      resolve cs "all" = Ok ids /\
      ids = seq 1 2000 /\
      List.length ids = 2000 /\
      (forall i, i < 2000 -> nth i ids 0 = 1 + i).
Proof.
  intros rng permutation s0.
  eexists. exists _PART_IDS. split; [apply BUILDER_CONFIGS_eq|].
  split; [now resolve_by_name|].
  split; [reflexivity|]. split; [apply length_PART_IDS|].
  intros i Hi. now apply nth_PART_IDS.
Qed.

(** ** Generators *)

Lemma gen_seq_done_l {Y} (g : Gen Y) : gen_seq gen_done g = g.
Proof. now destruct g. Qed.

Lemma gen_seq_assoc {Y} (g1 g2 g3 : Gen Y) :
  gen_seq (gen_seq g1 g2) g3 = gen_seq g1 (gen_seq g2 g3).
Proof.
  destruct g1 as [ys1 [e1|]], g2 as [ys2 [e2|]], g3 as [ys3 o3]; cbn;
    now rewrite <- ?app_assoc.
Qed.

Lemma gen_for_app {X Y} (xs1 xs2 : list X) (body : X -> Gen Y) :
  gen_for (xs1 ++ xs2) body = gen_seq (gen_for xs1 body) (gen_for xs2 body).
Proof.
  induction xs1 as [|x xs1 IH]; cbn [gen_for app].
  - now rewrite gen_seq_done_l.
  - now rewrite IH, gen_seq_assoc.
Qed.

Lemma gen_for_map {W X Y} (f : W -> X) (ws : list W) (body : X -> Gen Y) :
  gen_for (map f ws) body = gen_for ws (fun x => body (f x)).
Proof. induction ws as [|x ws IH]; cbn; [reflexivity | now rewrite IH]. Qed.

(** A loop whose turns all end without an exception yields what they
    yield, in order, and ends exhausted. *)
Lemma gen_for_complete {X Y} (body : X -> Gen Y) {xs : list X} {yss : list (list Y)} :
  Forall2 (fun x ys => body x = (ys, None)) xs yss ->
  gen_for xs body = (List.concat yss, None).
Proof.
  induction 1 as [|x ys xs yss Hx _ IH]; cbn; [reflexivity|].
  now rewrite Hx, IH.
Qed.

(** A loop stops at the first turn that raises: the turns before have
    yielded, the turns after never run. *)
Lemma gen_for_stops {X Y} (body : X -> Gen Y) (pre post : list X) (x : X)
      (yss : list (list Y)) (ys : list Y) (e : exn) :
  Forall2 (fun x ys => body x = (ys, None)) pre yss ->
  body x = (ys, Some e) ->
  gen_for (pre ++ x :: post) body = ((List.concat yss ++ ys)%list, Some e).
Proof.
  intros Hpre Hx. rewrite gen_for_app, (gen_for_complete _ Hpre).
  cbn. now rewrite Hx.
Qed.

Lemma gen_for_records {X Y} (record : X -> result Y) {xs : list X} {ys : list Y} :
  Forall2 (fun x y => record x = Ok y) xs ys ->
  gen_for xs (fun x => gen_eval (record x) gen_yield) = (ys, None).
Proof.
  induction 1 as [|x y xs ys Hx _ IH]; cbn; [reflexivity|].
  now rewrite Hx, IH.
Qed.

Lemma gen_for_records_stop {X Y} (record : X -> result Y) (pre post : list X) (x : X)
      (ys : list Y) (e : exn) :
  Forall2 (fun x y => record x = Ok y) pre ys ->
  record x = Err e ->
  gen_for (pre ++ x :: post) (fun x => gen_eval (record x) gen_yield) = (ys, Some e).
Proof.
  intros Hpre Hx. rewrite gen_for_app, (gen_for_records _ Hpre).
  cbn. rewrite Hx. cbn. now rewrite app_nil_r.
Qed.

Lemma gen_seq_In {Y} (g1 g2 : Gen Y) (y : Y) :
  In y (fst (gen_seq g1 g2)) -> In y (fst g1) \/ In y (fst g2).
Proof.
  destruct g1 as [ys [e|]]; cbn; [now left|].
  intros H. now apply in_app_or in H.
Qed.

Lemma gen_for_In {X Y} (body : X -> Gen Y) (xs : list X) (y : Y) :
  In y (fst (gen_for xs body)) -> exists x, In x xs /\ In y (fst (body x)).
Proof.
  induction xs as [|x xs IH]; cbn [gen_for]; [intros []|].
  intros H. apply gen_seq_In in H. destruct H as [H|H].
  - exists x. split; [now left | exact H].
  - destruct (IH H) as (x' & Hx' & Hy). exists x'. split; [now right | exact Hy].
Qed.

Lemma gen_eval_In {X Y} (r : result X) (k : X -> Gen Y) (y : Y) :
  In y (fst (gen_eval r k)) -> exists x, r = Ok x /\ In y (fst (k x)).
Proof.
  destruct r as [x|e]; cbn; [|intros []].
  intros H. now exists x.
Qed.

(** The loop over positions of two lists of one length is the loop over
    their pairs. *)
Lemma gen_for_positions {A B Y} (F : A -> B -> Gen Y) (ds : list A) (js : list B) :
  List.length ds = List.length js ->
  gen_for (range 0 (List.length ds))
          (fun k => gen_eval (list_getitem ds k) (fun d =>
                    gen_eval (list_getitem js k) (fun j => F d j)))
  = gen_for (combine ds js) (fun dj => F (fst dj) (snd dj)).
Proof.
  unfold range. rewrite Nat.sub_0_r.
  revert js. induction ds as [|d ds IH]; intros [|j js] Hlen; try discriminate.
  - reflexivity.
  - cbn [List.length seq combine gen_for]. rewrite <- seq_shift, gen_for_map.
    cbn [list_getitem nth_error gen_eval fst snd]. f_equal.
    injection Hlen as Hlen. rewrite <- (IH js Hlen). reflexivity.
Qed.

(** ** Dictionaries *)

Lemma dict_keys_In {V} (d : list (string * V)) (k : string) :
  In k (dict_keys d) <-> exists v, dict_get d k = Some v.
Proof.
  induction d as [|[k' v'] d IH]; cbn [dict_keys dict_get].
  - split; [intros [] | intros [v Hv]; discriminate].
  - cbn [In]. rewrite filter_In, IH.
    destruct (dict_get d k) as [v|] eqn:E.
    + split; [intros _; now exists v|].
      intros _. destruct (String.eqb_spec k' k) as [->|Hne]; [now left|].
      right. split; [now exists v|].
      destruct (String.eqb_spec k k') as [->|_]; [contradiction | reflexivity].
    + destruct (String.eqb_spec k' k) as [->|Hne].
      * split; [intros _; now exists v' | now left].
      * split; [|intros [v Hv]; discriminate].
        intros [H|[[v Hv] _]]; [contradiction | discriminate].
Qed.

Lemma dict_keys_NoDup {V} (d : list (string * V)) : NoDup (dict_keys d).
Proof.
  induction d as [|[k v] d IH]; cbn [dict_keys]; constructor.
  - rewrite filter_In. intros [_ H]. now rewrite String.eqb_refl in H.
  - now apply NoDup_filter.
Qed.

(** ** The address table *)

Lemma find_part_url (i a n : nat) (rest : list (url_key * string)) :
  a <= i < a + n ->
  find (fun e => url_key_eqb (fst e) (part i))
       (map (fun j => (part j, part_url j)) (seq a n) ++ rest)
  = Some (part i, part_url i).
Proof.
  revert a. induction n as [|n IH]; intros a H; [lia|].
  cbn [seq map app find fst url_key_eqb].
  destruct (Nat.eqb_spec a i) as [->|Hne]; [reflexivity|].
  apply IH. lia.
Qed.

Lemma _URLS_part (i : nat) :
  1 <= i <= 2000 -> _URLS_getitem (part i) = Ok (part_url i).
Proof.
  intros H. unfold _URLS_getitem, _URLS. rewrite PART_IDS_seq.
  rewrite find_part_url by lia. reflexivity.
Qed.

Lemma find_metadata_url (a n : nat) :
  find (fun e => url_key_eqb (fst e) metadata)
       (map (fun j => (part j, part_url j)) (seq a n) ++ [(metadata, metadata_url)])
  = Some (metadata, metadata_url).
Proof. revert a. induction n as [|n IH]; intros a; [reflexivity | apply IH]. Qed.

Lemma _URLS_metadata : _URLS_getitem metadata = Ok metadata_url.
Proof.
  unfold _URLS_getitem, _URLS. rewrite PART_IDS_seq, find_metadata_url. reflexivity.
Qed.

(** ** The sampler table *)

Lemma _SAMPLER_DICT_canonical (c : Z) :
  _SAMPLER_DICT_getitem c
  = match canonical_token c with
    | Some t => Ok t
    | None => Err (UnknownSamplerCode c)
    end.
Proof.
  destruct c as [|p|p]; try reflexivity.
  do 4 (try (destruct p as [p|p|]; try reflexivity)).
Qed.

Lemma canonical_token_range (c : Z) :
  (1 <= c <= 9)%Z <-> exists t, canonical_token c = Some t.
Proof.
  split.
  - intros H.
    assert (E : (c = 1 \/ c = 2 \/ c = 3 \/ c = 4 \/ c = 5
                 \/ c = 6 \/ c = 7 \/ c = 8 \/ c = 9)%Z) by lia.
    repeat (destruct E as [->|E]; [eexists; reflexivity|]).
    subst. eexists; reflexivity.
  - intros [t H].
    destruct c as [|p|p]; try discriminate.
    do 4 (try (destruct p as [p|p|]; try discriminate)); lia.
Qed.

Lemma canonical_token_In (c : Z) (t : string) :
  canonical_token c = Some t -> In t canonical_tokens.
Proof.
  intros H.
  destruct c as [|p|p]; try discriminate.
  do 4 (try (destruct p as [p|p|]; try discriminate));
    injection H as <-; cbn; tauto.
Qed.

(** ** One record *)

Ltac invert_steps H :=
  repeat match type of H with
         | context [match ?r with _ => _ end] =>
             destruct r eqn:?; cbn in H; try discriminate H
         end.

Lemma dict_getitem_Ok (d : list (string * pyval)) (k : string) (v : pyval) :
  dict_getitem d k = Ok v <-> dict_get d k = Some v.
Proof.
  unfold dict_getitem. destruct (dict_get d k); split; congruence.
Qed.

Lemma text_record_spec (w : Runtime) (row : list (string * pyval)) (y : pyval * Example) :
  text_record w row = Ok y <-> TextExampleOf w row y.
Proof.
  split.
  - intros H. unfold text_record, rbind in H.
    invert_steps H. injection H as <-.
    match goal with
    | E : _SAMPLER_DICT_getitem ?c = Ok ?t |- _ =>
        rewrite _SAMPLER_DICT_canonical in E;
        destruct (canonical_token c) eqn:Htok; [injection E as -> | discriminate E]
    end.
    repeat match goal with
           | E : dict_getitem _ _ = Ok _ |- _ => apply dict_getitem_Ok in E
           end.
    econstructor; [constructor|..]; eassumption.
  - intros [image_name prompt part_id seed step cfg sa code token [] Hint Htok].
    unfold text_record, rbind.
    repeat match goal with
           | E : dict_get _ _ = Some _ |- _ =>
               apply dict_getitem_Ok in E; rewrite E; clear E
           end.
    now rewrite Hint, _SAMPLER_DICT_canonical, Htok.
Qed.

Lemma image_record_spec (w : Runtime) (dir : string) (sidecar : list (string * pyval))
      (img_name : string) (y : pyval * Example) :
  image_record w dir (PDict sidecar) (PStr img_name) = Ok y
  <-> ImageExampleOf w dir sidecar img_name y.
Proof.
  split.
  - intros H. unfold image_record, rbind in H.
    cbn [subscript py_join] in H.
    invert_steps H. injection H as <-.
    match goal with
    | E : dict_getitem _ _ = Ok _ |- _ => apply dict_getitem_Ok in E
    end.
    econstructor; try eassumption. constructor; eassumption.
  - intros [img_params content p se st c sa seed step cfg Hget Hbytes [] Hse Hst Hc].
    unfold image_record, rbind. cbn [subscript py_join].
    apply dict_getitem_Ok in Hget. rewrite Hget, Hbytes.
    repeat match goal with E : subscript _ _ = Ok _ |- _ => rewrite E; clear E end.
    now rewrite Hse, Hst, Hc.
Qed.

(** ** The two modes of [_generate_examples] *)

Lemma generate_text (w : Runtime) (config : DiffusionDBConfig)
      (p : string) (rest jsons : list string) :
  name config = "text_only" ->
  _generate_examples w config (p :: rest) jsons
  = gen_eval (read_parquet w p) (fun metadata_df =>
      gen_for metadata_df (fun row => gen_eval (text_record w row) gen_yield)).
Proof. intros H. unfold _generate_examples. now rewrite H. Qed.

Lemma generate_images (w : Runtime) (config : DiffusionDBConfig) (dirs jsons : list string) :
  (name config =? "text_only") = false ->
  List.length dirs = List.length jsons ->
  _generate_examples w config dirs jsons
  = gen_for (combine dirs jsons) (fun dj => shard_examples w (fst dj) (snd dj)).
Proof.
  intros Hname Hlen. unfold _generate_examples. rewrite Hname, Hlen, Nat.eqb_refl.
  cbn [negb]. rewrite <- Hlen. now apply gen_for_positions.
Qed.

Lemma shard_examples_dict (w : Runtime) (dir jp : string) (sidecar : list (string * pyval)) :
  load_json w jp = Ok (PDict sidecar) ->
  shard_examples w dir jp
  = gen_for (dict_keys sidecar)
            (fun n => gen_eval (image_record w dir (PDict sidecar) (PStr n)) gen_yield).
Proof.
  intros H. unfold shard_examples. rewrite H. cbn [gen_eval py_iter].
  apply gen_for_map.
Qed.

Lemma image_records_ok (w : Runtime) (dir : string) (sidecar : list (string * pyval))
      (names : list string) (ys : list (pyval * Example)) :
  Forall2 (ImageExampleOf w dir sidecar) names ys ->
  Forall2 (fun n y => image_record w dir (PDict sidecar) (PStr n) = Ok y) names ys.
Proof. apply Forall2_impl. intros n y. apply image_record_spec. Qed.

Lemma text_records_ok (w : Runtime) (rows : list (list (string * pyval)))
      (ys : list (pyval * Example)) :
  Forall2 (TextExampleOf w) rows ys ->
  Forall2 (fun row y => text_record w row = Ok y) rows ys.
Proof. apply Forall2_impl. intros n y. apply text_record_spec. Qed.

(** A shard whose images all decode yields their examples and goes on. *)
Lemma shard_examples_complete (w : Runtime) (dir jp : string)
      (sidecar : list (string * pyval)) (ys : list (pyval * Example)) :
  load_json w jp = Ok (PDict sidecar) ->
  Forall2 (ImageExampleOf w dir sidecar) (dict_keys sidecar) ys ->
  shard_examples w dir jp = (ys, None).
Proof.
  intros Hload Hok. rewrite (shard_examples_dict w dir jp sidecar Hload).
  apply gen_for_records. now apply image_records_ok.
Qed.

(** A shard stops at the first image whose record raises. *)
Lemma shard_examples_stop (w : Runtime) (dir jp : string)
      (sidecar : list (string * pyval)) (before after : list string) (img_name : string)
      (ys : list (pyval * Example)) (e : exn) :
  load_json w jp = Ok (PDict sidecar) ->
  dict_keys sidecar = (before ++ img_name :: after)%list ->
  Forall2 (ImageExampleOf w dir sidecar) before ys ->
  image_record w dir (PDict sidecar) (PStr img_name) = Err e ->
  shard_examples w dir jp = (ys, Some e).
Proof.
  intros Hload Hkeys Hok Herr.
  rewrite (shard_examples_dict w dir jp sidecar Hload), Hkeys.
  apply gen_for_records_stop; [now apply image_records_ok | exact Herr].
Qed.

(** ** Text-only mode *)

(** C7: in text-only mode the generator goes through the rows of the
    consolidated table in file order and yields one text example per row,
    keyed by the row's image_name, with image_name, prompt, part_id, seed,
    step and cfg unchanged and the sampler code replaced by its token; on
    the one-row table of the specification (sampler code 2) it yields
    exactly one example, whose sampler is plms. *)
Theorem text_only_one_example_per_row :
  (forall (w : Runtime) (config : DiffusionDBConfig) (p : string)
          (rest jsons : list string) (rows : list (list (string * pyval)))
          (ys : list (pyval * Example)),
      name config = "text_only" ->
      read_parquet w p = Ok rows ->
      Forall2 (TextExampleOf w) rows ys ->
      _generate_examples w config (p :: rest) jsons = (ys, None)) /\
  train_examples spec_runtime text_only_config
  = ([ (PStr "x",
        TextExample (PStr "x") (PStr "dog") (PInt 3) (PInt 9) (PInt 10)
                    (PFloat (float_of_dyadic 6 0)) "plms") ],
     None).
Proof.
  split.
  - intros w config p rest jsons rows ys Hname Hread Hrows.
    rewrite generate_text by exact Hname. rewrite Hread. cbn [gen_eval].
    apply gen_for_records. now apply text_records_ok.
  - unfold train_examples, _split_generators.
    cbn [fetch_parts part_ids text_only_config rbind name].
    rewrite _URLS_metadata. reflexivity.
Qed.

Lemma spec_row_example :
  Forall2 (TextExampleOf spec_runtime) spec_table
    [ (PStr "x",
       TextExample (PStr "x") (PStr "dog") (PInt 3) (PInt 9) (PInt 10)
                   (PFloat (float_of_dyadic 6 0)) "plms") ].
Proof.
  repeat constructor.
  apply TextExampleOf_intro with (sa := PInt 2) (code := 2%Z);
    [constructor|..]; reflexivity.
Defined.

Lemma text_only_one_example_per_row_witness :
  _generate_examples spec_runtime text_only_config ["/cache/metadata.parquet"] []
  = ([ (PStr "x",
        TextExample (PStr "x") (PStr "dog") (PInt 3) (PInt 9) (PInt 10)
                    (PFloat (float_of_dyadic 6 0)) "plms") ],
     None).
Proof.
  apply (proj1 text_only_one_example_per_row spec_runtime text_only_config
               "/cache/metadata.parquet" [] [] spec_table).
  - reflexivity.
  - reflexivity.
  - exact spec_row_example.
Defined.

(** C4: the lookup of a sampler code gives the documented token for the
    codes 1 to 9 and raises for every other code; a row whose code is
    between 1 and 9 becomes an example with that token, and at a row whose
    code is not, the stream ends with the lookup's exception, after the
    examples of the rows before it and with none for that row. *)
Theorem sampler_translation :
  (_SAMPLER_DICT_getitem 1 = Ok "ddim" /\
   _SAMPLER_DICT_getitem 2 = Ok "plms" /\
   _SAMPLER_DICT_getitem 3 = Ok "k_euler" /\
   _SAMPLER_DICT_getitem 4 = Ok "k_euler_ancestral" /\
   _SAMPLER_DICT_getitem 5 = Ok "ddik_heunm" /\
   _SAMPLER_DICT_getitem 6 = Ok "k_dpm_2" /\
   _SAMPLER_DICT_getitem 7 = Ok "k_dpm_2_ancestral" /\
   _SAMPLER_DICT_getitem 8 = Ok "k_lms" /\
   _SAMPLER_DICT_getitem 9 = Ok "others") /\
  (forall c : Z,
      ~ (1 <= c <= 9)%Z -> _SAMPLER_DICT_getitem c = Err (UnknownSamplerCode c)) /\
  (forall (w : Runtime) (row : list (string * pyval))
          (image_name prompt part_id seed step cfg sa : pyval) (c : Z),
      RowCells row image_name prompt part_id seed step cfg sa ->
      py_int w sa = Ok c ->
      (1 <= c <= 9)%Z ->
      exists token,
        canonical_token c = Some token /\
        text_record w row
        = Ok (image_name, TextExample image_name prompt part_id seed step cfg token)) /\
  (forall (w : Runtime) (config : DiffusionDBConfig) (p : string)
          (rest jsons : list string)
          (before after : list (list (string * pyval))) (row : list (string * pyval))
          (ys : list (pyval * Example))
          (image_name prompt part_id seed step cfg sa : pyval) (c : Z),
      name config = "text_only" ->
      read_parquet w p = Ok (before ++ row :: after)%list ->
      Forall2 (TextExampleOf w) before ys ->
      RowCells row image_name prompt part_id seed step cfg sa ->
      py_int w sa = Ok c ->
      ~ (1 <= c <= 9)%Z ->
      _generate_examples w config (p :: rest) jsons = (ys, Some (UnknownSamplerCode c))).
Proof.
  split; [repeat split|]. split; [|split].
  - intros c Hc. rewrite _SAMPLER_DICT_canonical.
    destruct (canonical_token c) as [t|] eqn:E; [|reflexivity].
    exfalso. apply Hc, canonical_token_range. now exists t.
  - intros w row image_name prompt part_id seed step cfg sa c Hcells Hint Hc.
    apply canonical_token_range in Hc. destruct Hc as [token Htok].
    exists token. split; [exact Htok|].
    apply text_record_spec. econstructor; eassumption.
  - intros w config p rest jsons before after row ys
           image_name prompt part_id seed step cfg sa c
           Hname Hread Hbefore [] Hint Hc.
    rewrite generate_text by exact Hname. rewrite Hread. cbn [gen_eval].
    apply gen_for_records_stop; [now apply text_records_ok|].
    unfold text_record, rbind.
    repeat match goal with
           | E : dict_get _ _ = Some _ |- _ =>
               apply dict_getitem_Ok in E; rewrite E; clear E
           end.
    rewrite Hint, _SAMPLER_DICT_canonical.
    destruct (canonical_token c) as [t|] eqn:E; [|reflexivity].
    exfalso. apply Hc, canonical_token_range. now exists t.
Qed.

Lemma sampler_translation_witness :
  _generate_examples bad_code_runtime text_only_config ["/cache/metadata.parquet"] []
  = ([ (PStr "x",
        TextExample (PStr "x") (PStr "dog") (PInt 3) (PInt 9) (PInt 10)
                    (PFloat (float_of_dyadic 6 0)) "plms") ],
     Some (UnknownSamplerCode 10)).
Proof.
  apply (proj2 (proj2 (proj2 sampler_translation))
           bad_code_runtime text_only_config "/cache/metadata.parquet" [] []
           spec_table
           [ [ ("image_name", PStr "z"); ("prompt", PStr "owl"); ("part_id", PInt 4);
               ("seed", PInt 8); ("step", PInt 50);
               ("cfg", PFloat (float_of_dyadic 7 0)); ("sampler", PInt 1) ] ]
           [ ("image_name", PStr "y"); ("prompt", PStr "cat"); ("part_id", PInt 4);
             ("seed", PInt 7); ("step", PInt 50);
             ("cfg", PFloat (float_of_dyadic 7 0)); ("sampler", PInt 10) ]
           _ (PStr "y") (PStr "cat") (PInt 4) (PInt 7) (PInt 50)
           (PFloat (float_of_dyadic 7 0)) (PInt 10) 10%Z).
  - reflexivity.
  - reflexivity.
  - repeat constructor.
    apply TextExampleOf_intro with (sa := PInt 2) (code := 2%Z);
      [constructor|..]; reflexivity.
  - constructor; reflexivity.
  - reflexivity.
  - lia.
Defined.

(** ** Fetching the shards *)

Lemma fetch_parts_fetched (w : Runtime) (shards : list Shard) (dirs jsons : list string) :
  Forall (Fetched w) shards ->
  fetch_parts w (map shard_id shards) dirs jsons
  = Ok ((dirs ++ map shard_dir shards)%list, (jsons ++ map shard_json_path shards)%list).
Proof.
  intros H. revert dirs jsons.
  induction H as [|s shards [Hid Hdir _] _ IH]; intros dirs jsons; cbn [map fetch_parts].
  - now rewrite !app_nil_r.
  - rewrite _URLS_part by exact Hid. cbn [rbind]. rewrite Hdir. cbn [rbind].
    rewrite IH, <- !app_assoc. reflexivity.
Qed.

Lemma split_generators_images (w : Runtime) (config : DiffusionDBConfig)
      (shards : list Shard) :
  (name config =? "text_only") = false ->
  part_ids config = map shard_id shards ->
  Forall (Fetched w) shards ->
  _split_generators w config
  = Ok {| data_dirs := map shard_dir shards;
          json_paths := map shard_json_path shards |}.
Proof.
  intros Hname Hids Hfetched. unfold _split_generators.
  rewrite Hids, (fetch_parts_fetched w shards [] [] Hfetched), Hname.
  reflexivity.
Qed.

Lemma combine_shards (shards : list Shard) :
  combine (map shard_dir shards) (map shard_json_path shards)
  = map (fun s => (shard_dir s, shard_json_path s)) shards.
Proof. induction shards as [|s shards IH]; cbn; [reflexivity | now rewrite IH]. Qed.

(** ** Image mode *)

Lemma shards_complete (w : Runtime) (shards : list Shard)
      (yss : list (list (pyval * Example))) :
  Forall (Fetched w) shards ->
  Forall2 (fun s ys =>
             Forall2 (ImageExampleOf w (shard_dir s) (shard_sidecar s))
                     (dict_keys (shard_sidecar s)) ys)
          shards yss ->
  Forall2 (fun s ys => shard_examples w (shard_dir s) (shard_json_path s) = (ys, None))
          shards yss.
Proof.
  intros Hfetched Hok.
  induction Hok as [|s ys shards yss Hs _ IH]; constructor.
  - inversion Hfetched as [|? ? [_ _ Hload] _]; subst.
    now apply shard_examples_complete with (sidecar := shard_sidecar s).
  - apply IH. now inversion Hfetched.
Qed.

(** C6: in image mode the generator goes through the shards in the order
    of the configuration's shard ids and, within a shard, through the
    filenames of its sidecar in insertion order (each filename once); it
    yields one image example per filename, keyed by the filename, with
    the decoded parameters.  On the shard of the specification (a.png and
    b.png with their two-entry sidecar) it yields exactly two examples,
    keyed a.png then b.png, with the prompt, seed, step, cfg and sampler
    of each entry. *)
Theorem image_mode_one_example_per_filename :
  (forall (w : Runtime) (config : DiffusionDBConfig) (shards : list Shard)
          (yss : list (list (pyval * Example))),
      (name config =? "text_only") = false ->
      part_ids config = map shard_id shards ->
      Forall (Fetched w) shards ->
      Forall2 (fun s ys =>
                 Forall2 (ImageExampleOf w (shard_dir s) (shard_sidecar s))
                         (dict_keys (shard_sidecar s)) ys)
              shards yss ->
      train_examples w config = (List.concat yss, None) /\
      map fst (List.concat yss)
      = flat_map (fun s => map PStr (dict_keys (shard_sidecar s))) shards /\
      Forall (fun s => NoDup (dict_keys (shard_sidecar s))) shards) /\
  train_examples spec_runtime (first_config 1)
  = ([ (PStr "a.png",
        ImageExample {| path := "/cache/part-000002/a.png"; bytes := a_png |}
                     (PStr "cat") 1 20 (float_of_dyadic 15 (-1)) (PStr "ddim"));
       (PStr "b.png",
        ImageExample {| path := "/cache/part-000002/b.png"; bytes := b_png |}
                     (PStr "dog") 2 30 (float_of_dyadic 8 0) (PStr "plms")) ],
     None).
Proof.
  split.
  - intros w config shards yss Hname Hids Hfetched Hok. split; [|split].
    + unfold train_examples.
      rewrite (split_generators_images w config shards Hname Hids Hfetched).
      cbn [gen_eval data_dirs json_paths].
      rewrite generate_images; [|exact Hname|now rewrite !length_map].
      rewrite combine_shards, gen_for_map. cbn [fst snd].
      apply gen_for_complete. now apply shards_complete.
    + clear Hids Hfetched.
      induction Hok as [|s ys shards yss Hs _ IH]; cbn [List.concat flat_map];
        [reflexivity|].
      rewrite map_app, IH. f_equal.
      clear IH. induction Hs as [|n y ns ys' Hn _ IH]; cbn [map]; [reflexivity|].
      rewrite IH. destruct Hn. reflexivity.
    + apply Forall_forall. intros s _. apply dict_keys_NoDup.
  - unfold train_examples, _split_generators.
    cbn [part_ids first_config name]. rewrite slice_PART_IDS by lia.
    cbn [seq fetch_parts]. rewrite _URLS_part by lia. reflexivity.
Qed.

Lemma image_mode_one_example_per_filename_witness :
  train_examples spec_runtime (first_config 1)
  = (List.concat
       [ [ (PStr "a.png",
            ImageExample {| path := "/cache/part-000002/a.png"; bytes := a_png |}
                         (PStr "cat") 1 20 (float_of_dyadic 15 (-1)) (PStr "ddim"));
           (PStr "b.png",
            ImageExample {| path := "/cache/part-000002/b.png"; bytes := b_png |}
                         (PStr "dog") 2 30 (float_of_dyadic 8 0) (PStr "plms")) ] ],
     None).
Proof.
  refine (proj1 (proj1 image_mode_one_example_per_filename spec_runtime
                   (first_config 1) [spec_shard] _ _ _ _ _)).
  - reflexivity.
  - reflexivity.
  - constructor; [|constructor].
    constructor; [cbn; lia | reflexivity | reflexivity].
  - repeat constructor.
    + eapply (ImageExampleOf_intro spec_runtime "/cache/part-000002" _ "a.png"
                _ a_png (PStr "cat") (PInt 1) (PInt 20)
                (PFloat (float_of_dyadic 15 (-1))) (PStr "ddim"));
        [| |constructor|..]; reflexivity.
    + eapply (ImageExampleOf_intro spec_runtime "/cache/part-000002" _ "b.png"
                _ b_png (PStr "dog") (PInt 2) (PInt 30)
                (PFloat (float_of_dyadic 8 0)) (PStr "plms"));
        [| |constructor|..]; reflexivity.
Defined.

Lemma combine_map_app {A B} (ps : list (A * B)) (l : list A) (l' : list B) :
  combine (map fst ps ++ l) (map snd ps ++ l') = (ps ++ combine l l')%list.
Proof.
  induction ps as [|[a b] ps IH]; cbn; [reflexivity | now rewrite IH].
Qed.

Lemma image_record_missing (w : Runtime) (dir : string) (sidecar : list (string * pyval))
      (img_name : string) (e : exn) :
  In img_name (dict_keys sidecar) ->
  read_bytes w (join dir img_name) = Err e ->
  image_record w dir (PDict sidecar) (PStr img_name) = Err e.
Proof.
  intros Hin Hread. apply dict_keys_In in Hin. destruct Hin as [img_params Hget].
  apply dict_getitem_Ok in Hget.
  unfold image_record, rbind. cbn [subscript py_join]. now rewrite Hget, Hread.
Qed.

Lemma image_record_conversion (w : Runtime) (dir : string)
      (sidecar : list (string * pyval)) (img_name : string) (img_params : pyval)
      (content : list Byte.byte) (e : exn) :
  dict_get sidecar img_name = Some img_params ->
  read_bytes w (join dir img_name) = Ok content ->
  ConversionFails w img_params e ->
  image_record w dir (PDict sidecar) (PStr img_name) = Err e.
Proof.
  intros Hget Hread Hfail. apply dict_getitem_Ok in Hget.
  unfold image_record, rbind. cbn [subscript py_join]. rewrite Hget, Hread.
  destruct Hfail as [p se st c sa e [] Hse
                    |p se st c sa seed e [] Hse Hst
                    |p se st c sa seed step e [] Hse Hst Hc];
    repeat match goal with E : subscript _ _ = Ok _ |- _ => rewrite E; clear E end.
  - now rewrite Hse.
  - now rewrite Hse, Hst.
  - now rewrite Hse, Hst, Hc.
Qed.

Lemma combine_shards_app (shards : list Shard) (l l' : list string) :
  combine (map shard_dir shards ++ l) (map shard_json_path shards ++ l')
  = (map (fun s => (shard_dir s, shard_json_path s)) shards ++ combine l l')%list.
Proof. induction shards as [|s shards IH]; cbn; [reflexivity | now rewrite IH]. Qed.

Lemma loaded_shards_complete (w : Runtime) (shards : list Shard)
      (yss : list (list (pyval * Example))) :
  Forall2 (fun s ys =>
             load_json w (shard_json_path s) = Ok (PDict (shard_sidecar s)) /\
             Forall2 (ImageExampleOf w (shard_dir s) (shard_sidecar s))
                     (dict_keys (shard_sidecar s)) ys)
          shards yss ->
  Forall2 (fun s ys => shard_examples w (shard_dir s) (shard_json_path s) = (ys, None))
          shards yss.
Proof.
  apply Forall2_impl. intros s ys [Hload Hok].
  now apply shard_examples_complete with (sidecar := shard_sidecar s).
Qed.

(** C5: in image mode, when the file of a filename listed in a shard's
    sidecar is not on disk, the stream ends with the missing-file
    exception at that record: the examples of every filename of all the
    shards before and of all the filenames before it in its shard have
    been yielded, in order, none skipped or replaced, and nothing is
    yielded after. *)
Theorem missing_image_stops_stream :
  forall (w : Runtime) (config : DiffusionDBConfig)
         (shards_before : list Shard) (yss : list (list (pyval * Example)))
         (dir jp : string) (sidecar : list (string * pyval))
         (names_before names_after : list string) (img_name : string)
         (ys : list (pyval * Example)) (dirs_after jsons_after : list string),
    (name config =? "text_only") = false ->
    Forall2 (fun s ys' =>
               load_json w (shard_json_path s) = Ok (PDict (shard_sidecar s)) /\
               Forall2 (ImageExampleOf w (shard_dir s) (shard_sidecar s))
                       (dict_keys (shard_sidecar s)) ys')
            shards_before yss ->
    load_json w jp = Ok (PDict sidecar) ->
    dict_keys sidecar = (names_before ++ img_name :: names_after)%list ->
    Forall2 (ImageExampleOf w dir sidecar) names_before ys ->
    read_bytes w (join dir img_name) = Err (MissingAsset (join dir img_name)) ->
    List.length dirs_after = List.length jsons_after ->
    _generate_examples w config
      (map shard_dir shards_before ++ dir :: dirs_after)%list
      (map shard_json_path shards_before ++ jp :: jsons_after)%list
    = ((List.concat yss ++ ys)%list, Some (MissingAsset (join dir img_name))) /\
    map fst (List.concat yss ++ ys)%list
    = (flat_map (fun s => map PStr (dict_keys (shard_sidecar s))) shards_before
       ++ map PStr names_before)%list.
Proof.
  intros w config shards_before yss dir jp sidecar names_before names_after img_name
         ys dirs_after jsons_after Hname Hbefore Hload Hkeys Hok Hmissing Hlen.
  split.
  - rewrite generate_images;
      [|exact Hname|rewrite !length_app, !length_map; cbn; now rewrite Hlen].
    rewrite combine_shards_app. cbn [combine].
    rewrite gen_for_app, gen_for_map. cbn [fst snd].
    rewrite (gen_for_complete _ (loaded_shards_complete w shards_before yss Hbefore)).
    cbn [gen_for gen_seq fst snd].
    rewrite (shard_examples_stop w dir jp sidecar names_before names_after img_name
               ys (MissingAsset (join dir img_name)) Hload Hkeys Hok).
    + reflexivity.
    + apply image_record_missing; [|exact Hmissing].
      rewrite Hkeys. apply in_or_app. right. now left.
  - rewrite map_app. f_equal.
    + clear Hload Hkeys Hok Hmissing Hlen.
      induction Hbefore as [|s ys' shards yss' [_ Hs] _ IH];
        cbn [List.concat flat_map]; [reflexivity|].
      rewrite map_app, IH. f_equal.
      clear IH. induction Hs as [|n y ns ys'' Hn _ IH]; cbn [map]; [reflexivity|].
      rewrite IH. now destruct Hn.
    + clear Hbefore Hload Hkeys Hmissing Hlen.
      induction Hok as [|n y ns ys' Hn _ IH]; cbn [map]; [reflexivity|].
      rewrite IH. now destruct Hn.
Qed.

Lemma missing_image_stops_stream_witness :
  _generate_examples two_shard_runtime (first_config 5)
    (map shard_dir [spec_shard] ++ ["/cache/part-000003"])%list
    (map shard_json_path [spec_shard] ++ ["/cache/part-000003/part-000003.json"])%list
  = ((List.concat
        [ [ (PStr "a.png",
             ImageExample {| path := "/cache/part-000002/a.png"; bytes := a_png |}
                          (PStr "cat") 1 20 (float_of_dyadic 15 (-1)) (PStr "ddim"));
            (PStr "b.png",
             ImageExample {| path := "/cache/part-000002/b.png"; bytes := b_png |}
                          (PStr "dog") 2 30 (float_of_dyadic 8 0) (PStr "plms")) ] ]
      ++ [ (PStr "a.png",
            ImageExample {| path := "/cache/part-000003/a.png"; bytes := a_png |}
                         (PStr "cat") 1 20 (float_of_dyadic 15 (-1)) (PStr "ddim")) ])%list,
     Some (MissingAsset "/cache/part-000003/b.png")) /\
  map fst
    (List.concat
       [ [ (PStr "a.png",
            ImageExample {| path := "/cache/part-000002/a.png"; bytes := a_png |}
                         (PStr "cat") 1 20 (float_of_dyadic 15 (-1)) (PStr "ddim"));
           (PStr "b.png",
            ImageExample {| path := "/cache/part-000002/b.png"; bytes := b_png |}
                         (PStr "dog") 2 30 (float_of_dyadic 8 0) (PStr "plms")) ] ]
     ++ [ (PStr "a.png",
           ImageExample {| path := "/cache/part-000003/a.png"; bytes := a_png |}
                        (PStr "cat") 1 20 (float_of_dyadic 15 (-1)) (PStr "ddim")) ])%list
  = (flat_map (fun s => map PStr (dict_keys (shard_sidecar s))) [spec_shard]
     ++ map PStr ["a.png"])%list.
Proof.
  apply (missing_image_stops_stream two_shard_runtime (first_config 5)
           [spec_shard] _ "/cache/part-000003" "/cache/part-000003/part-000003.json"
           (shard_sidecar spec_shard) ["a.png"] [] "b.png" _ [] []).
  - reflexivity.
  - constructor; [|constructor]. split; [reflexivity|].
    repeat constructor.
    + eapply (ImageExampleOf_intro two_shard_runtime "/cache/part-000002" _ "a.png"
                _ a_png (PStr "cat") (PInt 1) (PInt 20)
                (PFloat (float_of_dyadic 15 (-1))) (PStr "ddim"));
        [| |constructor|..]; reflexivity.
    + eapply (ImageExampleOf_intro two_shard_runtime "/cache/part-000002" _ "b.png"
                _ b_png (PStr "dog") (PInt 2) (PInt 30)
                (PFloat (float_of_dyadic 8 0)) (PStr "plms"));
        [| |constructor|..]; reflexivity.
  - reflexivity.
  - reflexivity.
  - repeat constructor.
    eapply (ImageExampleOf_intro two_shard_runtime "/cache/part-000003" _ "a.png"
              _ a_png (PStr "cat") (PInt 1) (PInt 20)
              (PFloat (float_of_dyadic 15 (-1))) (PStr "ddim"));
      [| |constructor|..]; reflexivity.
  - reflexivity.
  - reflexivity.
Defined.

(** C10: in image mode the seed and the step of an example are [int] of
    the sidecar's se and st values and its cfg is [float] of the c value,
    so numbers stored as strings are accepted and come out as integers
    and a float; the prompt and the sampler are the p and sa values as
    they are, whatever they are; and when one of the three conversions is
    not defined, the stream ends with its exception at that record, after
    the examples of the filenames before it. *)
Theorem image_parameters_coerced :
  (forall (w : Runtime) (dir : string) (sidecar : list (string * pyval))
          (img_name : string) (y : pyval * Example),
      image_record w dir (PDict sidecar) (PStr img_name) = Ok y
      <-> ImageExampleOf w dir sidecar img_name y) /\
  (forall (w : Runtime) (s : string) (z : Z),
      int_of_str w s = Some z -> py_int w (PStr s) = Ok z) /\
  (forall (w : Runtime) (s : string) (f : float),
      float_of_str w s = Some f -> py_float w (PStr s) = Ok f) /\
  (forall (w : Runtime) (dir img_name : string) (content : list Byte.byte)
          (p sa : pyval) (seed step : Z) (cfg : float),
      read_bytes w (join dir img_name) = Ok content ->
      image_record w dir
        (PDict [ (img_name,
                  PDict [ ("p", p); ("se", PInt seed); ("st", PInt step);
                          ("c", PFloat cfg); ("sa", sa) ]) ])
        (PStr img_name)
      = Ok (PStr img_name,
            ImageExample {| path := join dir img_name; bytes := content |}
                         p seed step cfg sa)) /\
  (forall (w : Runtime) (dir jp : string) (sidecar : list (string * pyval))
          (names_before names_after : list string) (img_name : string)
          (ys : list (pyval * Example)) (img_params : pyval)
          (content : list Byte.byte) (e : exn),
      load_json w jp = Ok (PDict sidecar) ->
      dict_keys sidecar = (names_before ++ img_name :: names_after)%list ->
      Forall2 (ImageExampleOf w dir sidecar) names_before ys ->
      dict_get sidecar img_name = Some img_params ->
      read_bytes w (join dir img_name) = Ok content ->
      ConversionFails w img_params e ->
      shard_examples w dir jp = (ys, Some e)).
Proof.
  split; [exact image_record_spec|].
  split; [intros w s z H; cbn; now rewrite H|].
  split; [intros w s f H; cbn; now rewrite H|].
  split.
  - intros w dir img_name content p sa seed step cfg Hread.
    apply image_record_spec.
    apply ImageExampleOf_intro
      with (img_params := PDict [ ("p", p); ("se", PInt seed); ("st", PInt step);
                                  ("c", PFloat cfg); ("sa", sa) ])
           (se := PInt seed) (st := PInt step) (c := PFloat cfg);
      [cbn [dict_get]; now rewrite String.eqb_refl | exact Hread
      | constructor; reflexivity | reflexivity..].
  - intros w dir jp sidecar names_before names_after img_name ys img_params content e
           Hload Hkeys Hok Hget Hread Hfail.
    apply shard_examples_stop with (sidecar := sidecar) (before := names_before)
                                   (after := names_after) (img_name := img_name);
      try assumption.
    now apply image_record_conversion with (img_params := img_params) (content := content).
Qed.

Lemma image_parameters_coerced_witness :
  shard_examples quoted_runtime "/cache/part-000002" "/cache/part-000002/part-000002.json"
  = ([ (PStr "a.png",
        ImageExample {| path := "/cache/part-000002/a.png"; bytes := a_png |}
                     (PStr "cat") 42 20 (float_of_dyadic 15 (-1)) (PInt 3)) ],
     Some ValueError).
Proof.
  apply (proj2 (proj2 (proj2 (proj2 image_parameters_coerced)))
           quoted_runtime "/cache/part-000002" "/cache/part-000002/part-000002.json"
           match quoted_sidecar with PDict d => d | _ => [] end
           ["a.png"] [] "b.png"
           [ (PStr "a.png",
              ImageExample {| path := "/cache/part-000002/a.png"; bytes := a_png |}
                           (PStr "cat") 42 20 (float_of_dyadic 15 (-1)) (PInt 3)) ]
           (PDict [ ("p", PNone); ("se", PInt 2); ("st", PStr "many");
                    ("c", PInt 8); ("sa", PStr "plms") ])
           b_png ValueError).
  - reflexivity.
  - reflexivity.
  - repeat constructor.
    eapply (ImageExampleOf_intro quoted_runtime "/cache/part-000002" _ "a.png"
              _ a_png (PStr "cat") (PStr "42") (PStr "20") (PStr "7.5") (PInt 3));
      [| |constructor|..]; reflexivity.
  - reflexivity.
  - reflexivity.
  - eapply (step_fails quoted_runtime _ PNone (PInt 2) (PStr "many") (PInt 8)
              (PStr "plms") 2%Z);
      [constructor|..]; reflexivity.
Defined.

(** ** The sampler field *)

(** C3, as stated, fails in image mode: a sidecar that names the sampler
    k_heun gives an example whose sampler is k_heun, which is none of the
    nine tokens. *)
Lemma image_sampler_not_normalized :
  exists k ex,
    In (k, ex) (fst (train_examples heun_runtime (first_config 1))) /\
    sampler_of ex = PStr "k_heun" /\
    ~ In "k_heun" canonical_tokens.
Proof.
  exists (PStr "a.png").
  exists (ImageExample {| path := "/cache/part-000002/a.png"; bytes := a_png |}
                       (PStr "cat") 1 20 (float_of_dyadic 15 (-1)) (PStr "k_heun")).
  assert (E : train_examples heun_runtime (first_config 1)
              = ([ (PStr "a.png",
                    ImageExample {| path := "/cache/part-000002/a.png"; bytes := a_png |}
                                 (PStr "cat") 1 20 (float_of_dyadic 15 (-1))
                                 (PStr "k_heun")) ], None)).
  { unfold train_examples, _split_generators.
    cbn [part_ids first_config name]. rewrite slice_PART_IDS by lia.
    cbn [seq fetch_parts]. rewrite _URLS_part by lia. reflexivity. }
  rewrite E. split; [now left|]. split; [reflexivity|].
  cbn. intros H. repeat (destruct H as [H|H]; [discriminate H|]). exact H.
Qed.

(** C3 (amended): in text-only mode the sampler of every example yielded
    is one of the nine canonical tokens; in image mode the sampler of an
    example is the sa value of its filename in the shard's sidecar, as it
    is stored there. *)
Theorem sampler_field_by_mode :
  (forall (w : Runtime) (config : DiffusionDBConfig) (dirs jsons : list string)
          (k : pyval) (ex : Example),
      name config = "text_only" ->
      In (k, ex) (fst (_generate_examples w config dirs jsons)) ->
      exists token, In token canonical_tokens /\ sampler_of ex = PStr token) /\
  (forall (w : Runtime) (config : DiffusionDBConfig) (dirs jsons : list string)
          (k : pyval) (ex : Example),
      (name config =? "text_only") = false ->
      In (k, ex) (fst (_generate_examples w config dirs jsons)) ->
      exists dir jp json_data img_params,
        In (dir, jp) (combine dirs jsons) /\
        load_json w jp = Ok json_data /\
        subscript json_data k = Ok img_params /\
        subscript img_params (PStr "sa") = Ok (sampler_of ex)).
Proof.
  split.
  - intros w config dirs jsons k ex Hname Hin.
    unfold _generate_examples in Hin. rewrite Hname in Hin. cbn [String.eqb] in Hin.
    change ("text_only" =? "text_only") with true in Hin. cbv iota in Hin.
    apply gen_eval_In in Hin. destruct Hin as (p & _ & Hin).
    apply gen_eval_In in Hin. destruct Hin as (rows & _ & Hin).
    apply gen_for_In in Hin. destruct Hin as (row & _ & Hin).
    apply gen_eval_In in Hin. destruct Hin as (y & Hrec & Hin).
    cbn in Hin. destruct Hin as [->|[]].
    apply text_record_spec in Hrec. inversion Hrec; subst.
    exists token. split; [|reflexivity].
    eapply canonical_token_In; eassumption.
  - intros w config dirs jsons k ex Hname Hin.
    unfold _generate_examples in Hin. rewrite Hname in Hin.
    destruct (Nat.eqb_spec (List.length dirs) (List.length jsons)) as [Hlen|_];
      [|destruct Hin].
    cbn [negb] in Hin. rewrite gen_for_positions in Hin by exact Hlen.
    apply gen_for_In in Hin. destruct Hin as ([dir jp] & Hdj & Hin).
    cbn [fst snd] in Hin. unfold shard_examples in Hin.
    apply gen_eval_In in Hin. destruct Hin as (json_data & Hload & Hin).
    apply gen_eval_In in Hin. destruct Hin as (names & _ & Hin).
    apply gen_for_In in Hin. destruct Hin as (img_name & _ & Hin).
    apply gen_eval_In in Hin. destruct Hin as (y & Hrec & Hin).
    cbn in Hin. destruct Hin as [->|[]].
    unfold image_record, rbind in Hrec. invert_steps Hrec.
    injection Hrec as -> <-.
    exists dir, jp, json_data. eexists. repeat split; eassumption.
Qed.

Lemma sampler_field_by_mode_witness :
  exists dir jp json_data img_params,
    In (dir, jp) (combine ["/cache/part-000002"] ["/cache/part-000002/part-000002.json"]) /\
    load_json heun_runtime jp = Ok json_data /\
    subscript json_data (PStr "a.png") = Ok img_params /\
    subscript img_params (PStr "sa") = Ok (PStr "k_heun").
Proof.
  apply (proj2 sampler_field_by_mode heun_runtime (first_config 1)
           ["/cache/part-000002"] ["/cache/part-000002/part-000002.json"]
           (PStr "a.png")
           (ImageExample {| path := "/cache/part-000002/a.png"; bytes := a_png |}
                         (PStr "cat") 1 20 (float_of_dyadic 15 (-1)) (PStr "k_heun"))).
  - reflexivity.
  - left. reflexivity.
Defined.

(** * Further properties of the script *)

(** ** Addresses and file names *)

Lemma find_part_outside (i a n : nat) (rest : list (url_key * string)) :
  ~ (a <= i < a + n) ->
  find (fun e => url_key_eqb (fst e) (part i))
       (map (fun j => (part j, part_url j)) (seq a n) ++ rest)
  = find (fun e => url_key_eqb (fst e) (part i)) rest.
Proof.
  revert a. induction n as [|n IH]; intros a H; [reflexivity|].
  cbn [seq map app find fst url_key_eqb].
  destruct (Nat.eqb_spec a i) as [->|Hne]; [lia|].
  apply IH. lia.
Qed.

Lemma _URLS_getitem_part (i : nat) :
  _URLS_getitem (part i)
  = if ((1 <=? i) && (i <=? 2000))%nat then Ok (part_url i)
    else Err (KeyError (PInt (Z.of_nat i))).
Proof.
  destruct (Nat.leb_spec 1 i) as [H1|H1]; cbn [andb];
    [destruct (Nat.leb_spec i 2000) as [H2|H2]|].
  - apply _URLS_part. lia.
  - unfold _URLS_getitem, _URLS. rewrite PART_IDS_seq.
    rewrite find_part_outside by lia. reflexivity.
  - unfold _URLS_getitem, _URLS. rewrite PART_IDS_seq.
    rewrite find_part_outside by lia. reflexivity.
Qed.

(** X1: [_URLS] has an address for the part ids 1 to 2000 and for the
    metadata, and for nothing else: any other part id is a missing key. *)
Theorem _URLS_keys :
  (forall i : nat,
      _URLS_getitem (part i)
      = if ((1 <=? i) && (i <=? 2000))%nat then Ok (part_url i)
        else Err (KeyError (PInt (Z.of_nat i)))) /\
  _URLS_getitem metadata = Ok metadata_url /\
  List.length _URLS = 2001.
Proof.
  split; [exact _URLS_getitem_part|]. split; [exact _URLS_metadata|].
  unfold _URLS. rewrite length_app, length_map, length_PART_IDS. reflexivity.
Qed.

Lemma zeros_string_of_uint (k : nat) (d : Decimal.uint) :
  zeros k ++ NilEmpty.string_of_uint d = NilEmpty.string_of_uint (leading_zeros k d).
Proof. induction k as [|k IH]; cbn; [reflexivity | now rewrite IH]. Qed.

Lemma of_uint_leading_zeros (k : nat) (d : Decimal.uint) :
  Nat.of_uint (leading_zeros k d) = Nat.of_uint d.
Proof. induction k as [|k IH]; [reflexivity | exact IH]. Qed.

Lemma decimal_nat_str_of_nat_06 (n : nat) : decimal_nat (str_of_nat_06 n) = Some n.
Proof.
  unfold decimal_nat, str_of_nat_06, str_of_nat.
  rewrite zeros_string_of_uint, NilEmpty.usu. cbn [option_map].
  now rewrite of_uint_leading_zeros, DecimalNat.Unsigned.of_to.
Qed.

Lemma length_append (s t : string) :
  String.length (s ++ t) = String.length s + String.length t.
Proof. induction s as [|c s IH]; cbn; [reflexivity | now rewrite IH]. Qed.

Lemma length_zeros (k : nat) : String.length (zeros k) = k.
Proof. induction k as [|k IH]; cbn; [reflexivity | now rewrite IH]. Qed.

Lemma append_inj_l (s x y : string) : s ++ x = s ++ y -> x = y.
Proof.
  induction s as [|c s IH]; cbn; [trivial|].
  intros H. injection H as H. now apply IH.
Qed.

Lemma append_inj_r (s x y : string) : x ++ s = y ++ s -> x = y.
Proof.
  revert y. induction x as [|c x IH]; intros [|c' y] H; cbn in H.
  - reflexivity.
  - apply (f_equal String.length) in H. cbn in H. rewrite length_append in H. lia.
  - apply (f_equal String.length) in H. cbn in H. rewrite length_append in H. lia.
  - injection H as -> H. f_equal. now apply IH.
Qed.

Lemma str_of_nat_06_inj (i j : nat) : str_of_nat_06 i = str_of_nat_06 j -> i = j.
Proof.
  intros H. apply (f_equal decimal_nat) in H.
  rewrite !decimal_nat_str_of_nat_06 in H. now injection H.
Qed.

(** X2: the six-digit part number of a file name reads back as the part
    id it was written from; it has at least six characters for every id,
    and exactly six for the ids of [_PART_IDS]. *)
Theorem part_number_round_trip :
  (forall n : nat, decimal_nat (str_of_nat_06 n) = Some n) /\
  (forall n : nat, 6 <= String.length (str_of_nat_06 n)) /\
  Forall (fun i => String.length (str_of_nat_06 i) = 6) _PART_IDS.
Proof.
  split; [exact decimal_nat_str_of_nat_06|]. split.
  - intros n. unfold str_of_nat_06. rewrite length_append, length_zeros. lia.
  - apply Forall_forall. intros i Hi.
    assert (E : forallb (fun i => (String.length (str_of_nat_06 i) =? 6)%nat) _PART_IDS
                = true) by (vm_compute; reflexivity).
    rewrite forallb_forall in E. apply Nat.eqb_eq. now apply E.
Qed.

Lemma part_url_inj (i j : nat) : part_url i = part_url j -> i = j.
Proof.
  unfold part_url, hf_hub_url. intros H.
  do 4 apply append_inj_l in H.
  apply append_inj_r in H. now apply str_of_nat_06_inj.
Qed.

Lemma part_url_not_metadata (i : nat) : part_url i <> metadata_url.
Proof.
  unfold part_url, metadata_url, hf_hub_url. intros H.
  do 3 apply append_inj_l in H. discriminate H.
Qed.

Lemma _URLS_getitem_part_Ok (i : nat) (u : string) :
  _URLS_getitem (part i) = Ok u -> u = part_url i.
Proof.
  rewrite _URLS_getitem_part.
  destruct ((1 <=? i) && (i <=? 2000))%nat; [|discriminate].
  intros H. now injection H.
Qed.

(** X3: no two keys of [_URLS] share an address, and no two part ids
    share a sidecar file name. *)
Theorem _URLS_injective :
  (forall (k k' : url_key) (u : string),
      _URLS_getitem k = Ok u -> _URLS_getitem k' = Ok u -> k = k') /\
  (forall i j : nat, sidecar_name i = sidecar_name j -> i = j).
Proof.
  split.
  - intros [i|] [j|] u Hk Hk'.
    + apply _URLS_getitem_part_Ok in Hk, Hk'. subst u.
      f_equal. symmetry. now apply part_url_inj.
    + apply _URLS_getitem_part_Ok in Hk. rewrite _URLS_metadata in Hk'.
      exfalso. apply (part_url_not_metadata i). congruence.
    + apply _URLS_getitem_part_Ok in Hk'. rewrite _URLS_metadata in Hk.
      exfalso. apply (part_url_not_metadata j). congruence.
    + reflexivity.
  - intros i j H. unfold sidecar_name in H.
    apply append_inj_l, append_inj_r in H. now apply str_of_nat_06_inj.
Qed.

Lemma _URLS_injective_witness :
  part 7 = part 7 /\ 12 = 12.
Proof.
  split.
  - apply (proj1 _URLS_injective (part 7) (part 7) (part_url 7)); reflexivity.
  - apply (proj2 _URLS_injective 12 12). reflexivity.
Defined.

(** ** The catalog as a whole *)

Lemma resolve_known (cs : list DiffusionDBConfig) (n : string) :
  In n (map name cs) -> exists ids, resolve cs n = Ok ids.
Proof.
  induction cs as [|c cs IH]; cbn [map In]; [intros []|].
  intros H. destruct (String.eqb_spec (name c) n) as [E|E].
  - exists (part_ids c). apply resolve_cons_eq. now apply String.eqb_eq.
  - rewrite resolve_cons_ne by now apply String.eqb_neq.
    apply IH. destruct H as [H|H]; [contradiction | exact H].
Qed.

Lemma resolve_unknown (cs : list DiffusionDBConfig) (n : string) :
  ~ In n (map name cs) -> resolve cs n = Err ValueError.
Proof.
  induction cs as [|c cs IH]; cbn [map In]; [reflexivity|].
  intros H. rewrite resolve_cons_ne.
  - apply IH. tauto.
  - apply String.eqb_neq. tauto.
Qed.

Lemma resolve_first_config {rng} (permutation : rng -> nat -> list nat * rng) (s0 : rng)
      (cs : list DiffusionDBConfig) (num_k : nat) :
  BUILDER_CONFIGS permutation s0 = Ok cs ->
  In num_k [1; 5; 10; 50; 100; 500; 1000] ->
  resolve cs ("first_" ++ num_k_str num_k) = Ok (seq 2 num_k).
Proof.
  rewrite BUILDER_CONFIGS_eq. intros H Hk. injection H as <-.
  each_size Hk.
  all: resolve_by_name; cbn [part_ids first_config].
  all: now rewrite slice_PART_IDS by lia.
Qed.

(** X4: whatever the generator does, the catalog holds the same sixteen
    names in the same order, none twice; the default configuration name is
    one of them; text_only stands for no shard at all; and a name resolves
    exactly when it is in the catalog, any other name being refused. *)
Theorem catalog_names :
  forall (rng : Type) (permutation : rng -> nat -> list nat * rng) (s0 : rng),
  exists cs,
    BUILDER_CONFIGS permutation s0 = Ok cs /\
    map name cs
    = [ "first_1k"; "random_1k"; "first_5k"; "random_5k"; "first_10k"; "random_10k";
        "first_50k"; "random_50k"; "first_100k"; "random_100k";
        "first_500k"; "random_500k"; "first_1m"; "random_1m"; "all"; "text_only" ] /\
    NoDup (map name cs) /\
    In DEFAULT_CONFIG_NAME (map name cs) /\
    resolve cs "text_only" = Ok [] /\
    (forall n, In n (map name cs) <-> exists ids, resolve cs n = Ok ids) /\
    (forall n, ~ In n (map name cs) <-> resolve cs n = Err ValueError).
Proof.
  intros rng permutation s0. eexists. split; [apply BUILDER_CONFIGS_eq|].
  match goal with |- map name ?l = _ /\ _ => set (cs := l) end.
  assert (Hnames : map name cs
    = [ "first_1k"; "random_1k"; "first_5k"; "random_5k"; "first_10k"; "random_10k";
        "first_50k"; "random_50k"; "first_100k"; "random_100k";
        "first_500k"; "random_500k"; "first_1m"; "random_1m"; "all"; "text_only" ])
    by reflexivity.
  split; [exact Hnames|]. rewrite Hnames.
  split; [|split; [|split; [|split]]].
  - repeat (constructor;
            [cbn [In]; intros H;
             repeat (destruct H as [H|H]; [discriminate H|]); exact H|]).
    constructor.
  - cbn. tauto.
  - subst cs. now resolve_by_name.
  - intros n. rewrite <- Hnames. split; [apply resolve_known|].
    intros [ids H]. destruct (in_dec string_dec n (map name cs)) as [Hin|Hout];
      [exact Hin|].
    rewrite (resolve_unknown cs n Hout) in H. discriminate H.
  - intros n. rewrite <- Hnames. split; [apply resolve_unknown|].
    intros H Hin. destruct (resolve_known cs n Hin) as [ids E].
    rewrite E in H. discriminate H.
Qed.

Lemma first_ids_distinct_in_range (num_k : nat) :
  num_k < 2000 ->
  NoDup (part_ids (first_config num_k)) /\
  (forall id, In id (part_ids (first_config num_k)) -> 1 <= id <= 2000).
Proof.
  intros H. cbn [part_ids first_config]. rewrite slice_PART_IDS by exact H.
  split; [apply seq_NoDup|]. intros id Hid. apply in_seq in Hid. lia.
Qed.

(** X5: under numpy's contract, every configuration of the catalog, of
    whatever policy, lists shard ids that are pairwise distinct and lie
    in 1 to 2000, so each of them has an address in [_URLS]. *)
Theorem catalog_ids_have_addresses :
  forall (rng : Type) (permutation : rng -> nat -> list nat * rng),
    permutation_contract permutation ->
    forall (s0 : rng),
    exists cs,
      BUILDER_CONFIGS permutation s0 = Ok cs /\
      forall c, In c cs ->
        NoDup (part_ids c) /\
        forall id, In id (part_ids c) ->
          1 <= id <= 2000 /\ _URLS_getitem (part id) = Ok (part_url id).
Proof.
  intros rng permutation Hp s0. eexists. split; [apply BUILDER_CONFIGS_eq|].
  intros c Hc.
  assert (H : NoDup (part_ids c) /\ forall id, In id (part_ids c) -> 1 <= id <= 2000).
  { cbn [In] in Hc.
    repeat (destruct Hc as [<-|Hc];
            [first [ apply first_ids_distinct_in_range; lia
                   | split; [now apply random_ids_NoDup
                            | intros id; now apply random_ids_range]
                   | idtac ] |]).
    - cbn [part_ids all_config]. rewrite PART_IDS_seq. split; [apply seq_NoDup|].
      intros id Hid. apply in_seq in Hid. lia.
    - cbn [part_ids text_only_config]. split; [constructor | intros id []].
    - destruct Hc. }
  destruct H as [Hnd Hr]. split; [exact Hnd|].
  intros id Hid. split; [now apply Hr | apply _URLS_part; now apply Hr].
Qed.

Lemma catalog_ids_have_addresses_witness :
  exists cs,
    BUILDER_CONFIGS reversing_permutation 0 = Ok cs /\
    forall c, In c cs ->
      NoDup (part_ids c) /\
      forall id, In id (part_ids c) ->
        1 <= id <= 2000 /\ _URLS_getitem (part id) = Ok (part_url id).
Proof.
  exact (catalog_ids_have_addresses nat reversing_permutation
           reversing_permutation_ok 0).
Defined.

(** X6: the first windows are nested: for two sizes of the catalog, the
    shard ids of the smaller first configuration are the first ids of the
    larger one, and all of them are ids of the configuration all. *)
Theorem first_windows_nested :
  forall (rng : Type) (permutation : rng -> nat -> list nat * rng) (s0 : rng)
         (a b : nat),
    In a [1; 5; 10; 50; 100; 500; 1000] ->
    In b [1; 5; 10; 50; 100; 500; 1000] ->
    a <= b ->
    exists cs ids_a ids_b ids_all,
      BUILDER_CONFIGS permutation s0 = Ok cs /\
      resolve cs ("first_" ++ num_k_str a) = Ok ids_a /\
      resolve cs ("first_" ++ num_k_str b) = Ok ids_b /\
      resolve cs "all" = Ok ids_all /\
      ids_a = firstn a ids_b /\
      incl ids_b ids_all.
Proof.
  intros rng permutation s0 a b Ha Hb Hab.
  assert (Hb' : b <= 1000) by (each_size Hb; lia).
  exists (match BUILDER_CONFIGS permutation s0 with Ok cs => cs | Err _ => [] end).
  exists (seq 2 a), (seq 2 b), (seq 1 2000).
  split; [now rewrite BUILDER_CONFIGS_eq|].
  split; [apply (resolve_first_config permutation s0);
          [now rewrite BUILDER_CONFIGS_eq | exact Ha]|].
  split; [apply (resolve_first_config permutation s0);
          [now rewrite BUILDER_CONFIGS_eq | exact Hb]|].
  split; [rewrite BUILDER_CONFIGS_eq; now resolve_by_name|].
  split.
  - rewrite firstn_seq. now rewrite Nat.min_l by exact Hab.
  - intros id Hid. apply in_seq in Hid. apply in_seq. lia.
Qed.

Lemma first_windows_nested_witness :
  exists cs ids_a ids_b ids_all,
    BUILDER_CONFIGS reversing_permutation 0 = Ok cs /\
    resolve cs ("first_" ++ num_k_str 5) = Ok ids_a /\
    resolve cs ("first_" ++ num_k_str 50) = Ok ids_b /\
    resolve cs "all" = Ok ids_all /\
    ids_a = firstn 5 ids_b /\
    incl ids_b ids_all.
Proof.
  apply (first_windows_nested nat reversing_permutation 0 5 50).
  - cbn. tauto.
  - cbn. tauto.
  - lia.
Defined.

(** ** Fetching before generating *)

Lemma _URLS_getitem_part_range (i : nat) (u : string) :
  _URLS_getitem (part i) = Ok u -> 1 <= i <= 2000.
Proof.
  rewrite _URLS_getitem_part.
  destruct (Nat.leb_spec 1 i), (Nat.leb_spec i 2000); cbn [andb];
    try discriminate; lia.
Qed.

Lemma fetch_parts_Ok (w : Runtime) (ids : list nat) (dirs jsons ds js : list string) :
  fetch_parts w ids dirs jsons = Ok (ds, js) ->
  exists new,
    ds = (dirs ++ new)%list /\
    js = (jsons ++ map (fun p => join (snd p) (sidecar_name (fst p))) (combine ids new))%list /\
    Forall2 (fun id d => 1 <= id <= 2000 /\ download_and_extract w (part_url id) = Ok d)
            ids new.
Proof.
  revert dirs jsons. induction ids as [|id ids IH]; intros dirs jsons H;
    cbn [fetch_parts] in H.
  - injection H as <- <-. exists []. rewrite !app_nil_r. repeat split. constructor.
  - unfold rbind in H.
    destruct (_URLS_getitem (part id)) as [u|] eqn:Hu; [|discriminate H].
    destruct (download_and_extract w u) as [d|] eqn:Hd; [|discriminate H].
    pose proof (_URLS_getitem_part_range id u Hu) as Hr.
    apply _URLS_getitem_part_Ok in Hu. subst u.
    destruct (IH _ _ H) as (new & -> & -> & Hall).
    exists (d :: new). rewrite <- !app_assoc. repeat split; [lia..|].
    constructor; [split; [lia | exact Hd] | exact Hall].
Qed.

(** X7: what [_split_generators] returns for an image configuration is
    one folder per shard id, in order, each the download manager's answer
    for that shard's address, with the sidecar path of that shard inside
    its folder; the two lists have one length, so the assertion of
    [_generate_examples] holds on them.  On lists of different lengths
    the assertion fails before anything is read or yielded. *)
Theorem split_generators_shape :
  (forall (w : Runtime) (config : DiffusionDBConfig) (kw : gen_kwargs),
      (name config =? "text_only") = false ->
      _split_generators w config = Ok kw ->
      Forall2 (fun id d => 1 <= id <= 2000 /\ download_and_extract w (part_url id) = Ok d)
              (part_ids config) (data_dirs kw) /\
      json_paths kw
      = map (fun p => join (snd p) (sidecar_name (fst p)))
            (combine (part_ids config) (data_dirs kw)) /\
      List.length (data_dirs kw) = List.length (json_paths kw) /\
      _generate_examples w config (data_dirs kw) (json_paths kw)
      = gen_for (combine (data_dirs kw) (json_paths kw))
                (fun dj => shard_examples w (fst dj) (snd dj))) /\
  (forall (w : Runtime) (config : DiffusionDBConfig) (dirs jsons : list string),
      (name config =? "text_only") = false ->
      List.length dirs <> List.length jsons ->
      _generate_examples w config dirs jsons = ([], Some AssertionError)).
Proof.
  split.
  - intros w config kw Hname H. unfold _split_generators, rbind in H.
    destruct (fetch_parts w (part_ids config) [] []) as [[ds js]|] eqn:Hf;
      [|discriminate H].
    rewrite Hname in H. injection H as <-. cbn [data_dirs json_paths fst snd].
    apply fetch_parts_Ok in Hf. destruct Hf as (new & -> & -> & Hall).
    cbn [app].
    assert (Hlen : List.length new
                   = List.length (map (fun p => join (snd p) (sidecar_name (fst p)))
                                      (combine (part_ids config) new))).
    { rewrite length_map, length_combine, (Forall2_length Hall). lia. }
    split; [exact Hall|]. split; [reflexivity|]. split; [exact Hlen|].
    now apply generate_images.
  - intros w config dirs jsons Hname Hlen. unfold _generate_examples.
    rewrite Hname. destruct (Nat.eqb_spec (List.length dirs) (List.length jsons));
      [contradiction | reflexivity].
Qed.

Lemma split_generators_shape_witness :
  Forall2 (fun id d => 1 <= id <= 2000
                       /\ download_and_extract spec_runtime (part_url id) = Ok d)
          (part_ids (first_config 1)) ["/cache/part-000002"] /\
  ["/cache/part-000002/part-000002.json"]
  = map (fun p => join (snd p) (sidecar_name (fst p)))
        (combine (part_ids (first_config 1)) ["/cache/part-000002"]) /\
  List.length ["/cache/part-000002"]
  = List.length ["/cache/part-000002/part-000002.json"] /\
  _generate_examples spec_runtime (first_config 1)
    ["/cache/part-000002"] ["/cache/part-000002/part-000002.json"]
  = gen_for (combine ["/cache/part-000002"] ["/cache/part-000002/part-000002.json"])
            (fun dj => shard_examples spec_runtime (fst dj) (snd dj)).
Proof.
  apply (proj1 split_generators_shape spec_runtime (first_config 1)
           {| data_dirs := ["/cache/part-000002"];
              json_paths := ["/cache/part-000002/part-000002.json"] |}).
  - reflexivity.
  - unfold _split_generators. cbn [part_ids first_config name].
    rewrite slice_PART_IDS by lia. cbn [seq fetch_parts].
    rewrite _URLS_part by lia. reflexivity.
Defined.

Lemma fetch_parts_stops (w : Runtime) (pre post : list nat) (id : nat) (e : exn)
      (dirs jsons : list string) :
  Forall (fun i => 1 <= i <= 2000 /\ exists d, download_and_extract w (part_url i) = Ok d)
         pre ->
  1 <= id <= 2000 ->
  download_and_extract w (part_url id) = Err e ->
  fetch_parts w (pre ++ id :: post) dirs jsons = Err e.
Proof.
  intros Hpre Hid Herr. revert dirs jsons.
  induction Hpre as [|i pre [Hi [d Hd]] _ IH]; intros dirs jsons;
    cbn [app fetch_parts].
  - rewrite _URLS_part by exact Hid. cbn [rbind]. now rewrite Herr.
  - rewrite _URLS_part by exact Hi. cbn [rbind]. rewrite Hd. cbn [rbind]. apply IH.
Qed.

(** X8: fetching is all or nothing: when the download of one shard of
    the configuration fails, the split is not built and the run ends with
    that error without yielding a single record, however many shards
    before it were fetched; the same holds when a part id has no address
    (it is outside 1 to 2000), the error then being the missing key. *)
Theorem failed_fetch_yields_nothing :
  (forall (w : Runtime) (config : DiffusionDBConfig) (pre post : list nat) (id : nat)
          (e : exn),
      part_ids config = (pre ++ id :: post)%list ->
      Forall (fun i => 1 <= i <= 2000
                       /\ exists d, download_and_extract w (part_url i) = Ok d) pre ->
      1 <= id <= 2000 ->
      download_and_extract w (part_url id) = Err e ->
      train_examples w config = ([], Some e)) /\
  (forall (w : Runtime) (config : DiffusionDBConfig) (post : list nat) (id : nat),
      part_ids config = id :: post ->
      ~ (1 <= id <= 2000) ->
      train_examples w config = ([], Some (KeyError (PInt (Z.of_nat id))))).
Proof.
  split.
  - intros w config pre post id e Hids Hpre Hid Herr.
    unfold train_examples, _split_generators.
    rewrite Hids, (fetch_parts_stops w pre post id e [] [] Hpre Hid Herr).
    reflexivity.
  - intros w config post id Hids Hid.
    unfold train_examples, _split_generators. rewrite Hids. cbn [fetch_parts].
    rewrite _URLS_getitem_part.
    destruct (Nat.leb_spec 1 id), (Nat.leb_spec id 2000); cbn [andb];
      try reflexivity; lia.
Qed.

Lemma failed_fetch_yields_nothing_witness :
  train_examples spec_runtime (first_config 5)
  = ([], Some (ExternalError (part_url 3))).
Proof.
  apply (proj1 failed_fetch_yields_nothing spec_runtime (first_config 5)
           [2] [4; 5; 6] 3 (ExternalError (part_url 3))).
  - cbn [part_ids first_config]. now rewrite slice_PART_IDS by lia.
  - constructor; [|constructor]. split; [lia|].
    exists "/cache/part-000002". reflexivity.
  - lia.
  - reflexivity.
Defined.

(** ** What a run reads *)

Lemma gen_for_ext {X Y} (xs : list X) (body body' : X -> Gen Y) :
  (forall x, In x xs -> body x = body' x) -> gen_for xs body = gen_for xs body'.
Proof.
  induction xs as [|x xs IH]; intros H; cbn; [reflexivity|].
  rewrite H by now left. rewrite IH; [reflexivity|].
  intros y Hy. apply H. now right.
Qed.

Lemma py_int_ext (w w' : Runtime) (v : pyval) :
  (forall s, int_of_str w s = int_of_str w' s) -> py_int w v = py_int w' v.
Proof. intros H. destruct v; cbn; try reflexivity. now rewrite H. Qed.

Lemma py_float_ext (w w' : Runtime) (v : pyval) :
  (forall s, float_of_str w s = float_of_str w' s) -> py_float w v = py_float w' v.
Proof. intros H. destruct v; cbn; try reflexivity. now rewrite H. Qed.

Lemma text_record_ext (w w' : Runtime) (row : list (string * pyval)) :
  (forall s, int_of_str w s = int_of_str w' s) ->
  text_record w row = text_record w' row.
Proof.
  intros H. unfold text_record, rbind.
  repeat match goal with
         | |- context [dict_getitem row ?k] => destruct (dict_getitem row k); try reflexivity
         end.
  now rewrite (py_int_ext w w' _ H).
Qed.

Lemma image_record_ext (w w' : Runtime) (dir : string) (json_data img_name : pyval) :
  (forall p, read_bytes w p = read_bytes w' p) ->
  (forall s, int_of_str w s = int_of_str w' s) ->
  (forall s, float_of_str w s = float_of_str w' s) ->
  image_record w dir json_data img_name = image_record w' dir json_data img_name.
Proof.
  intros Hb Hi Hf. unfold image_record, rbind.
  destruct (subscript json_data img_name) as [img_params|]; [|reflexivity].
  destruct (py_join dir img_name) as [img_path|]; [|reflexivity].
  rewrite Hb. destruct (read_bytes w' img_path); [|reflexivity].
  destruct (subscript img_params (PStr "p")); [|reflexivity].
  destruct (subscript img_params (PStr "se")) as [se|]; [|reflexivity].
  rewrite (py_int_ext w w' se Hi). destruct (py_int w' se); [|reflexivity].
  destruct (subscript img_params (PStr "st")) as [st|]; [|reflexivity].
  rewrite (py_int_ext w w' st Hi). destruct (py_int w' st); [|reflexivity].
  destruct (subscript img_params (PStr "c")) as [c|]; [|reflexivity].
  now rewrite (py_float_ext w w' c Hf).
Qed.

Lemma fetch_parts_ext (w w' : Runtime) (ids : list nat) (dirs jsons : list string) :
  (forall id, In id ids ->
     download_and_extract w (part_url id) = download_and_extract w' (part_url id)) ->
  fetch_parts w ids dirs jsons = fetch_parts w' ids dirs jsons.
Proof.
  revert dirs jsons. induction ids as [|id ids IH]; intros dirs jsons H;
    cbn [fetch_parts]; [reflexivity|].
  unfold rbind. destruct (_URLS_getitem (part id)) as [u|] eqn:Hu; [|reflexivity].
  apply _URLS_getitem_part_Ok in Hu. subst u.
  rewrite (H id) by now left.
  destruct (download_and_extract w' (part_url id)); [|reflexivity].
  apply IH. intros i Hi. apply H. now right.
Qed.

(** X9: a text-only run reads nothing but the download of the metadata
    address, the table and [int] on strings: two runtimes that agree on
    these give the same run, whatever their shards, sidecars and images.
    An image run reads nothing but the extraction of its own shards, the
    sidecars, the image files and the two conversions: it never touches
    the consolidated table nor the plain download. *)
Theorem runs_read_only_their_inputs :
  (forall (w w' : Runtime),
      download w metadata_url = download w' metadata_url ->
      (forall p, read_parquet w p = read_parquet w' p) ->
      (forall s, int_of_str w s = int_of_str w' s) ->
      train_examples w text_only_config = train_examples w' text_only_config) /\
  (forall (w w' : Runtime) (config : DiffusionDBConfig),
      (name config =? "text_only") = false ->
      (forall id, In id (part_ids config) ->
         download_and_extract w (part_url id) = download_and_extract w' (part_url id)) ->
      (forall p, load_json w p = load_json w' p) ->
      (forall p, read_bytes w p = read_bytes w' p) ->
      (forall s, int_of_str w s = int_of_str w' s) ->
      (forall s, float_of_str w s = float_of_str w' s) ->
      train_examples w config = train_examples w' config).
Proof.
  split.
  - intros w w' Hd Hp Hi.
    unfold train_examples, _split_generators.
    cbn [part_ids text_only_config fetch_parts rbind name].
    rewrite _URLS_metadata. cbn [rbind String.eqb Ascii.eqb Bool.eqb].
    rewrite Hd. destruct (download w' metadata_url) as [p|]; [|reflexivity].
    cbn [rbind gen_eval data_dirs json_paths snd].
    rewrite !generate_text by reflexivity. rewrite Hp.
    destruct (read_parquet w' p) as [rows|]; [|reflexivity].
    cbn [gen_eval]. apply gen_for_ext. intros row _.
    now rewrite (text_record_ext w w' row Hi).
  - intros w w' config Hname Hd Hl Hb Hi Hf.
    unfold train_examples, _split_generators.
    rewrite (fetch_parts_ext w w' _ [] [] Hd).
    destruct (fetch_parts w' (part_ids config) [] []) as [[ds js]|]; [|reflexivity].
    cbn [rbind]. rewrite Hname. cbn [gen_eval data_dirs json_paths fst snd].
    unfold _generate_examples. rewrite Hname.
    destruct (negb (List.length ds =? List.length js)%nat); [reflexivity|].
    apply gen_for_ext. intros k _.
    destruct (list_getitem ds k) as [dir|]; [|reflexivity].
    destruct (list_getitem js k) as [jp|]; [|reflexivity].
    cbn [gen_eval]. unfold shard_examples. rewrite Hl.
    destruct (load_json w' jp) as [json_data|]; [|reflexivity].
    cbn [gen_eval]. destruct (py_iter json_data) as [names|]; [|reflexivity].
    cbn [gen_eval]. apply gen_for_ext. intros n _.
    now rewrite (image_record_ext w w' dir json_data n Hb Hi Hf).
Qed.

Lemma runs_read_only_their_inputs_witness :
  train_examples spec_runtime text_only_config
  = train_examples table_only_runtime text_only_config /\
  train_examples spec_runtime (first_config 1)
  = train_examples shard_only_runtime (first_config 1).
Proof.
  split.
  - apply (proj1 runs_read_only_their_inputs spec_runtime table_only_runtime);
      reflexivity.
  - apply (proj2 runs_read_only_their_inputs spec_runtime shard_only_runtime
             (first_config 1)).
    + reflexivity.
    + intros id Hid. cbn [part_ids first_config] in Hid.
      rewrite slice_PART_IDS in Hid by lia.
      destruct Hid as [<-|[]]. reflexivity.
    + reflexivity.
    + reflexivity.
    + reflexivity.
    + reflexivity.
Defined.

(** ** Streams as prefixes *)

(** A loop that yields one record per element yields the records of the
    elements up to the first one that has none, and ends exhausted exactly
    when there is no such element. *)
Lemma gen_for_records_prefix {X Y} (record : X -> result Y) (xs : list X) :
  exists n,
    n <= List.length xs /\
    Forall2 (fun x y => record x = Ok y) (firstn n xs)
            (fst (gen_for xs (fun x => gen_eval (record x) gen_yield))) /\
    ((n = List.length xs
      /\ snd (gen_for xs (fun x => gen_eval (record x) gen_yield)) = None)
     \/ exists x e,
         nth_error xs n = Some x /\ record x = Err e /\
         snd (gen_for xs (fun x => gen_eval (record x) gen_yield)) = Some e).
Proof.
  induction xs as [|x xs (n & Hn & Hok & Hend)]; cbn [gen_for].
  - exists 0. split; [reflexivity|]. split; [constructor|]. now left.
  - destruct (record x) as [y|e] eqn:Hx; cbn [gen_eval].
    + exists (S n). cbn [List.length firstn gen_seq gen_yield fst snd app].
      split; [lia|]. split; [now constructor|].
      destruct Hend as [[-> Hnone]|(x' & e & Hnth & Hrec & Hsome)].
      * now left.
      * right. exists x', e. now repeat split.
    + exists 0. cbn. split; [lia|]. split; [constructor|].
      right. exists x, e. now repeat split.
Qed.

(** X10: a text-only run over a table yields the examples of its rows in
    order up to the first row that has none (a missing column, a sampler
    that is not a number or not a code of the table); it ends exhausted
    exactly when every row had one, and otherwise with the exception of
    that row. *)
Theorem text_only_stream_is_a_prefix :
  forall (w : Runtime) (config : DiffusionDBConfig) (p : string)
         (rest jsons : list string) (rows : list (list (string * pyval))),
    name config = "text_only" ->
    read_parquet w p = Ok rows ->
    exists n,
      n <= List.length rows /\
      Forall2 (TextExampleOf w) (firstn n rows)
              (fst (_generate_examples w config (p :: rest) jsons)) /\
      ((n = List.length rows
        /\ snd (_generate_examples w config (p :: rest) jsons) = None)
       \/ exists row e,
           nth_error rows n = Some row /\ text_record w row = Err e /\
           snd (_generate_examples w config (p :: rest) jsons) = Some e).
Proof.
  intros w config p rest jsons rows Hname Hread.
  rewrite generate_text by exact Hname. rewrite Hread. cbn [gen_eval].
  destruct (gen_for_records_prefix (text_record w) rows) as (n & Hn & Hok & Hend).
  exists n. split; [exact Hn|]. split; [|exact Hend].
  revert Hok. apply Forall2_impl. intros row y. apply text_record_spec.
Qed.

Lemma text_only_stream_is_a_prefix_witness :
  exists n,
    n <= List.length bad_code_table /\
    Forall2 (TextExampleOf bad_code_runtime) (firstn n bad_code_table)
            (fst (_generate_examples bad_code_runtime text_only_config
                    ["/cache/metadata.parquet"] [])) /\
    ((n = List.length bad_code_table
      /\ snd (_generate_examples bad_code_runtime text_only_config
                ["/cache/metadata.parquet"] []) = None)
     \/ exists row e,
         nth_error bad_code_table n = Some row /\
         text_record bad_code_runtime row = Err e /\
         snd (_generate_examples bad_code_runtime text_only_config
                ["/cache/metadata.parquet"] []) = Some e).
Proof.
  apply (text_only_stream_is_a_prefix bad_code_runtime text_only_config
           "/cache/metadata.parquet" [] [] bad_code_table); reflexivity.
Defined.

Lemma dict_getitem_None (d : list (string * pyval)) (k : string) :
  dict_get d k = None -> dict_getitem d k = Err (KeyError (PStr k)).
Proof. intros H. unfold dict_getitem. now rewrite H. Qed.

Lemma dict_getitem_present (d : list (string * pyval)) (k : string) :
  dict_get d k <> None -> exists v, dict_getitem d k = Ok v.
Proof.
  intros H. unfold dict_getitem. destruct (dict_get d k) as [v|]; [|contradiction].
  now exists v.
Qed.

(** X11: a row that lacks a column has no example: its record raises the
    missing-key error naming the first column, in the order image_name,
    prompt, part_id, seed, step, cfg, sampler, that the row does not have,
    before the sampler is looked at. *)
Theorem text_record_missing_column :
  forall (w : Runtime) (row : list (string * pyval))
         (before after : list string) (col : string),
    text_columns = (before ++ col :: after)%list ->
    (forall c, In c before -> dict_get row c <> None) ->
    dict_get row col = None ->
    text_record w row = Err (KeyError (PStr col)).
Proof.
  intros w row before after col Hcols Hbefore Hcol.
  apply dict_getitem_None in Hcol.
  unfold text_columns in Hcols. unfold text_record, rbind.
  do 7 (destruct before as [|c before];
        [ cbn [app] in Hcols; injection Hcols as <- _; now rewrite Hcol
        | cbn [app] in Hcols; injection Hcols as <- Hcols;
          let v := fresh "v" in
          let E := fresh "E" in
          destruct (dict_getitem_present row _ (Hbefore _ (or_introl eq_refl)))
            as [v E];
          rewrite E;
          assert (Hbefore' : forall c', In c' before -> dict_get row c' <> None)
            by (intros c' Hc'; apply Hbefore; now right);
          clear Hbefore; rename Hbefore' into Hbefore ]).
  destruct before; discriminate Hcols.
Qed.

Lemma text_record_missing_column_witness :
  text_record spec_runtime seedless_row = Err (KeyError (PStr "seed")).
Proof.
  apply (text_record_missing_column spec_runtime seedless_row
           ["image_name"; "prompt"; "part_id"] ["step"; "cfg"; "sampler"] "seed").
  - reflexivity.
  - intros c Hc. cbn [In] in Hc.
    repeat (destruct Hc as [<-|Hc]; [discriminate|]). destruct Hc.
  - reflexivity.
Defined.

(** ** Sidecars that are not what they should be *)

Lemma image_record_of_list (w : Runtime) (dir : string) (l : list pyval) (x : pyval) :
  exists e, image_record w dir (PList l) x = Err e.
Proof.
  unfold image_record, rbind.
  destruct (subscript (PList l) x) as [img_params|e] eqn:E; [|now exists e].
  destruct x; cbn in E; try discriminate E; now exists TypeError.
Qed.

Lemma shard_examples_not_object (w : Runtime) (dir jp : string) (json_data : pyval) :
  load_json w jp = Ok json_data ->
  (forall d, json_data <> PDict d) ->
  fst (shard_examples w dir jp) = [] /\
  (snd (shard_examples w dir jp) = None <-> json_data = PList [] \/ json_data = PStr "").
Proof.
  intros Hload Hnot. unfold shard_examples. rewrite Hload. cbn [gen_eval].
  destruct json_data as [| b | z | f | s | l | d]; cbn [py_iter gen_eval gen_raise fst snd];
    try (split; [reflexivity|]; split; [discriminate | intros [H|H]; discriminate H]).
  - destruct s as [|c s]; cbn [chars map gen_for].
    + split; [reflexivity|]. split; [now right | reflexivity].
    + split; [reflexivity|]. split; [discriminate | intros [H|H]; discriminate H].
  - destruct l as [|x l]; cbn [gen_for].
    + split; [reflexivity|]. split; [now left | reflexivity].
    + destruct (image_record_of_list w dir (x :: l) x) as [e He]. rewrite He.
      split; [reflexivity|]. split; [discriminate | intros [H|H]; discriminate H].
  - now destruct (Hnot d).
Qed.

(** X12: when the sidecar of a shard parses to something that is not an
    object, the shard yields no record; the run goes on to the next shard
    without an error only for an empty array or an empty string, and
    raises for every other value. *)
Theorem sidecar_not_an_object :
  forall (w : Runtime) (dir jp : string) (json_data : pyval),
    load_json w jp = Ok json_data ->
    (forall d, json_data <> PDict d) ->
    fst (shard_examples w dir jp) = [] /\
    (snd (shard_examples w dir jp) = None <-> json_data = PList [] \/ json_data = PStr "").
Proof. exact shard_examples_not_object. Qed.

Lemma sidecar_not_an_object_witness :
  fst (shard_examples array_runtime "/cache/part-000002"
         "/cache/part-000002/part-000002.json") = [] /\
  (snd (shard_examples array_runtime "/cache/part-000002"
          "/cache/part-000002/part-000002.json") = None
   <-> PList [PInt 0; PStr "a.png"] = PList [] \/ PList [PInt 0; PStr "a.png"] = PStr "").
Proof.
  apply (sidecar_not_an_object array_runtime "/cache/part-000002"
           "/cache/part-000002/part-000002.json" (PList [PInt 0; PStr "a.png"])).
  - reflexivity.
  - intros d H. discriminate H.
Defined.

Lemma subscript_param_None (d : list (string * pyval)) (k : string) :
  dict_get d k = None -> subscript (PDict d) (PStr k) = Err (KeyError (PStr k)).
Proof. intros H. cbn [subscript]. now apply dict_getitem_None. Qed.

Lemma subscript_param_Some (d : list (string * pyval)) (k : string) (v : pyval) :
  dict_get d k = Some v -> subscript (PDict d) (PStr k) = Ok v.
Proof. intros H. cbn [subscript]. now apply dict_getitem_Ok. Qed.

(** X13: once the file of an image has been read, parameters that are
    not an object raise a type error, and parameters that lack one of p,
    se, st, c, sa raise the missing-key error naming the first one that is
    absent, the conversions of the parameters read before it having
    succeeded. *)
Theorem image_record_bad_parameters :
  forall (w : Runtime) (dir : string) (sidecar : list (string * pyval))
         (img_name : string) (img_params : pyval) (content : list Byte.byte),
    dict_get sidecar img_name = Some img_params ->
    read_bytes w (join dir img_name) = Ok content ->
    ((forall d, img_params <> PDict d) ->
     image_record w dir (PDict sidecar) (PStr img_name) = Err TypeError) /\
    (forall d key,
        img_params = PDict d ->
        ParameterMissing w d key ->
        image_record w dir (PDict sidecar) (PStr img_name) = Err (KeyError (PStr key))).
Proof.
  intros w dir sidecar img_name img_params content Hget Hread.
  apply dict_getitem_Ok in Hget.
  split.
  - intros Hnot. unfold image_record, rbind. cbn [subscript py_join].
    rewrite Hget, Hread.
    destruct img_params; try reflexivity. now destruct (Hnot d).
  - intros d key -> Hmiss. unfold image_record, rbind.
    unfold subscript at 1. cbn [py_join]. rewrite Hget, Hread.
    destruct Hmiss;
      repeat match goal with
             | E : dict_get d _ = Some _ |- _ =>
                 apply subscript_param_Some in E; rewrite E; clear E
             | E : dict_get d _ = None |- _ =>
                 apply subscript_param_None in E; rewrite E; clear E
             | E : py_int w _ = Ok _ |- _ => rewrite E; clear E
             | E : py_float w _ = Ok _ |- _ => rewrite E; clear E
             end;
      reflexivity.
Qed.

Lemma image_record_bad_parameters_witness :
  image_record spec_runtime "/cache/part-000002"
    (PDict [ ("a.png",
              PDict [ ("p", PStr "cat"); ("se", PStr "42"); ("st", PInt 20);
                      ("sa", PStr "ddim") ]) ])
    (PStr "a.png") = Err (KeyError (PStr "c")).
Proof.
  apply (proj2 (image_record_bad_parameters spec_runtime "/cache/part-000002"
                  [ ("a.png",
                     PDict [ ("p", PStr "cat"); ("se", PStr "42"); ("st", PInt 20);
                             ("sa", PStr "ddim") ]) ]
                  "a.png"
                  (PDict [ ("p", PStr "cat"); ("se", PStr "42"); ("st", PInt 20);
                           ("sa", PStr "ddim") ])
                  a_png eq_refl eq_refl)
               _ "c" eq_refl).
  apply (c_missing spec_runtime _ (PStr "cat") (PStr "42") 42%Z (PInt 20) 20%Z);
    reflexivity.
Defined.

(** ** Shards one after the other *)

Lemma combine_app {A B} (l1 l2 : list A) (m1 m2 : list B) :
  List.length l1 = List.length m1 ->
  combine (l1 ++ l2) (m1 ++ m2) = (combine l1 m1 ++ combine l2 m2)%list.
Proof.
  revert m1. induction l1 as [|a l1 IH]; intros [|b m1] H; try discriminate H.
  - reflexivity.
  - cbn. injection H as H. now rewrite IH.
Qed.

(** X14: in image mode the run over two lists of shards put end to end
    is the run over the first followed, when it ends without an error, by
    the run over the second: the records of the first shards do not depend
    on the shards that follow. *)
Theorem image_runs_compose :
  forall (w : Runtime) (config : DiffusionDBConfig) (dirs1 jsons1 dirs2 jsons2 : list string),
    (name config =? "text_only") = false ->
    List.length dirs1 = List.length jsons1 ->
    List.length dirs2 = List.length jsons2 ->
    _generate_examples w config (dirs1 ++ dirs2)%list (jsons1 ++ jsons2)%list
    = gen_seq (_generate_examples w config dirs1 jsons1)
              (_generate_examples w config dirs2 jsons2) /\
    exists later,
      fst (_generate_examples w config (dirs1 ++ dirs2)%list (jsons1 ++ jsons2)%list)
      = (fst (_generate_examples w config dirs1 jsons1) ++ later)%list.
Proof.
  intros w config dirs1 jsons1 dirs2 jsons2 Hname H1 H2.
  assert (E : _generate_examples w config (dirs1 ++ dirs2)%list (jsons1 ++ jsons2)%list
              = gen_seq (_generate_examples w config dirs1 jsons1)
                        (_generate_examples w config dirs2 jsons2)).
  { rewrite !generate_images;
      try exact Hname; try assumption; [|rewrite !length_app; congruence].
    rewrite combine_app by exact H1. apply gen_for_app. }
  split; [exact E|]. rewrite E.
  destruct (_generate_examples w config dirs1 jsons1) as [ys [e|]]; cbn.
  - exists []. now rewrite app_nil_r.
  - now eexists.
Qed.

Lemma image_runs_compose_witness :
  _generate_examples spec_runtime (first_config 1)
    (["/cache/part-000002"] ++ ["/cache/part-000003"])%list
    (["/cache/part-000002/part-000002.json"]
       ++ ["/cache/part-000003/part-000003.json"])%list
  = gen_seq (_generate_examples spec_runtime (first_config 1)
               ["/cache/part-000002"] ["/cache/part-000002/part-000002.json"])
            (_generate_examples spec_runtime (first_config 1)
               ["/cache/part-000003"] ["/cache/part-000003/part-000003.json"]) /\
  exists later,
    fst (_generate_examples spec_runtime (first_config 1)
           (["/cache/part-000002"] ++ ["/cache/part-000003"])%list
           (["/cache/part-000002/part-000002.json"]
              ++ ["/cache/part-000003/part-000003.json"])%list)
    = (fst (_generate_examples spec_runtime (first_config 1)
              ["/cache/part-000002"] ["/cache/part-000002/part-000002.json"])
       ++ later)%list.
Proof.
  apply (image_runs_compose spec_runtime (first_config 1)
           ["/cache/part-000002"] ["/cache/part-000002/part-000002.json"]
           ["/cache/part-000003"] ["/cache/part-000003/part-000003.json"]);
    reflexivity.
Defined.

(** ** The shape and the keys of what is yielded *)

Lemma text_yield_record (w : Runtime) (config : DiffusionDBConfig)
      (dirs jsons : list string) (y : pyval * Example) :
  name config = "text_only" ->
  In y (fst (_generate_examples w config dirs jsons)) ->
  exists row, text_record w row = Ok y.
Proof.
  intros Hname Hin. unfold _generate_examples in Hin. rewrite Hname in Hin.
  change ("text_only" =? "text_only") with true in Hin. cbv iota in Hin.
  apply gen_eval_In in Hin. destruct Hin as (p & _ & Hin).
  apply gen_eval_In in Hin. destruct Hin as (rows & _ & Hin).
  apply gen_for_In in Hin. destruct Hin as (row & _ & Hin).
  apply gen_eval_In in Hin. destruct Hin as (y' & Hrec & Hin).
  cbn in Hin. destruct Hin as [->|[]]. now exists row.
Qed.

Lemma image_yield_record (w : Runtime) (config : DiffusionDBConfig)
      (dirs jsons : list string) (y : pyval * Example) :
  (name config =? "text_only") = false ->
  In y (fst (_generate_examples w config dirs jsons)) ->
  exists dir json_data img_name, image_record w dir json_data img_name = Ok y.
Proof.
  intros Hname Hin. unfold _generate_examples in Hin. rewrite Hname in Hin.
  destruct (Nat.eqb_spec (List.length dirs) (List.length jsons)) as [Hlen|_];
    [|destruct Hin].
  cbn [negb] in Hin. rewrite gen_for_positions in Hin by exact Hlen.
  apply gen_for_In in Hin. destruct Hin as ([dir jp] & _ & Hin).
  cbn [fst snd] in Hin. unfold shard_examples in Hin.
  apply gen_eval_In in Hin. destruct Hin as (json_data & _ & Hin).
  apply gen_eval_In in Hin. destruct Hin as (names & _ & Hin).
  apply gen_for_In in Hin. destruct Hin as (img_name & _ & Hin).
  apply gen_eval_In in Hin. destruct Hin as (y' & Hrec & Hin).
  cbn in Hin. destruct Hin as [->|[]]. now exists dir, json_data, img_name.
Qed.

(** X15: every example a run yields has exactly the fields that [_info]
    declares for the configuration, in the same order: the seven text
    fields under text_only, the six image fields under any other name. *)
Theorem examples_match_declared_features :
  forall (w : Runtime) (config : DiffusionDBConfig) (dirs jsons : list string)
         (k : pyval) (ex : Example),
    In (k, ex) (fst (_generate_examples w config dirs jsons)) ->
    example_keys ex = map fst (datasets.features (_info config)).
Proof.
  intros w config dirs jsons k ex Hin. unfold _info. cbn [datasets.features].
  destruct (String.eqb_spec (name config) "text_only") as [Hname|Hname].
  - destruct (text_yield_record w config dirs jsons _ Hname Hin) as [row Hrec].
    apply text_record_spec in Hrec. inversion Hrec; subst. reflexivity.
  - apply String.eqb_neq in Hname.
    destruct (image_yield_record w config dirs jsons _ Hname Hin)
      as (dir & json_data & img_name & Hrec).
    unfold image_record, rbind in Hrec. invert_steps Hrec.
    injection Hrec as _ <-. reflexivity.
Qed.

Lemma examples_match_declared_features_witness :
  example_keys
    (ImageExample {| path := "/cache/part-000002/a.png"; bytes := a_png |}
                  (PStr "cat") 1 20 (float_of_dyadic 15 (-1)) (PStr "ddim"))
  = map fst (datasets.features (_info (first_config 1))).
Proof.
  apply (examples_match_declared_features spec_runtime (first_config 1)
           ["/cache/part-000002"] ["/cache/part-000002/part-000002.json"]
           (PStr "a.png")).
  left. reflexivity.
Defined.

Lemma join_absolute (dir s : string) : starts_with_slash s = true -> join dir s = s.
Proof. intros H. unfold join. now rewrite H. Qed.

(** X16: a filename of a sidecar that starts with a slash is not looked
    up in the shard's folder: its record is the same whatever the folder,
    and the example it gives has that filename as its path and the bytes
    of the file at that absolute path. *)
Theorem absolute_filename_leaves_the_folder :
  forall (w : Runtime) (dir dir' : string) (json_data : pyval) (img_name : string),
    starts_with_slash img_name = true ->
    image_record w dir json_data (PStr img_name)
    = image_record w dir' json_data (PStr img_name) /\
    forall k image p seed step cfg sa,
      image_record w dir json_data (PStr img_name)
      = Ok (k, ImageExample image p seed step cfg sa) ->
      path image = img_name /\ read_bytes w img_name = Ok (bytes image).
Proof.
  intros w dir dir' json_data img_name Habs. split.
  - unfold image_record. cbn [py_join]. now rewrite !join_absolute by exact Habs.
  - intros k image p seed step cfg sa H.
    unfold image_record, rbind in H. cbn [py_join] in H.
    rewrite join_absolute in H by exact Habs.
    invert_steps H. injection H as _ <- _ _ _ _ _. now split.
Qed.

Lemma absolute_filename_leaves_the_folder_witness :
  image_record spec_runtime "/cache/part-000002"
    (PDict [ ("/cache/part-000002/b.png", PDict [ ("p", PStr "dog") ]) ])
    (PStr "/cache/part-000002/b.png")
  = image_record spec_runtime "/elsewhere"
      (PDict [ ("/cache/part-000002/b.png", PDict [ ("p", PStr "dog") ]) ])
      (PStr "/cache/part-000002/b.png").
Proof.
  apply (absolute_filename_leaves_the_folder spec_runtime "/cache/part-000002"
           "/elsewhere"
           (PDict [ ("/cache/part-000002/b.png", PDict [ ("p", PStr "dog") ]) ])
           "/cache/part-000002/b.png").
  reflexivity.
Defined.

(** X17: a shard whose sidecar is an object yields the examples of its
    filenames in insertion order up to the first filename that has none
    (a missing file, missing or unconvertible parameters); it ends without
    an error exactly when every filename had one, and otherwise with the
    exception of that filename's record. *)
Theorem shard_stream_is_a_prefix :
  forall (w : Runtime) (dir jp : string) (sidecar : list (string * pyval)),
    load_json w jp = Ok (PDict sidecar) ->
    exists n,
      n <= List.length (dict_keys sidecar) /\
      Forall2 (ImageExampleOf w dir sidecar) (firstn n (dict_keys sidecar))
              (fst (shard_examples w dir jp)) /\
      ((n = List.length (dict_keys sidecar) /\ snd (shard_examples w dir jp) = None)
       \/ exists img_name e,
           nth_error (dict_keys sidecar) n = Some img_name /\
           image_record w dir (PDict sidecar) (PStr img_name) = Err e /\
           snd (shard_examples w dir jp) = Some e).
Proof.
  intros w dir jp sidecar Hload.
  rewrite (shard_examples_dict w dir jp sidecar Hload).
  destruct (gen_for_records_prefix
              (fun n => image_record w dir (PDict sidecar) (PStr n)) (dict_keys sidecar))
    as (n & Hn & Hok & Hend).
  exists n. split; [exact Hn|]. split; [|exact Hend].
  revert Hok. apply Forall2_impl. intros name y. apply image_record_spec.
Qed.

Lemma shard_stream_is_a_prefix_witness :
  exists n,
    n <= List.length (dict_keys (shard_sidecar spec_shard)) /\
    Forall2 (ImageExampleOf missing_b_runtime "/cache/part-000002"
                            (shard_sidecar spec_shard))
            (firstn n (dict_keys (shard_sidecar spec_shard)))
            (fst (shard_examples missing_b_runtime "/cache/part-000002"
                    "/cache/part-000002/part-000002.json")) /\
    ((n = List.length (dict_keys (shard_sidecar spec_shard))
      /\ snd (shard_examples missing_b_runtime "/cache/part-000002"
                "/cache/part-000002/part-000002.json") = None)
     \/ exists img_name e,
         nth_error (dict_keys (shard_sidecar spec_shard)) n = Some img_name /\
         image_record missing_b_runtime "/cache/part-000002"
           (PDict (shard_sidecar spec_shard)) (PStr img_name) = Err e /\
         snd (shard_examples missing_b_runtime "/cache/part-000002"
                "/cache/part-000002/part-000002.json") = Some e).
Proof.
  apply (shard_stream_is_a_prefix missing_b_runtime "/cache/part-000002"
           "/cache/part-000002/part-000002.json" (shard_sidecar spec_shard)).
  reflexivity.
Defined.

Lemma image_example_keys (w : Runtime) (dir : string) (sidecar : list (string * pyval))
      (names : list string) (ys : list (pyval * Example)) :
  Forall2 (ImageExampleOf w dir sidecar) names ys -> map fst ys = map PStr names.
Proof.
  induction 1 as [|n y names ys Hn _ IH]; cbn [map]; [reflexivity|].
  rewrite IH. now destruct Hn.
Qed.

Lemma shard_stream_prefix_keys (w : Runtime) (dir jp : string)
      (sidecar : list (string * pyval)) :
  load_json w jp = Ok (PDict sidecar) ->
  exists n,
    map fst (fst (shard_examples w dir jp)) = map PStr (firstn n (dict_keys sidecar)).
Proof.
  intros Hload. rewrite (shard_examples_dict w dir jp sidecar Hload).
  destruct (gen_for_records_prefix
              (fun n => image_record w dir (PDict sidecar) (PStr n)) (dict_keys sidecar))
    as (n & _ & Hok & _).
  exists n. apply image_example_keys with (w := w) (dir := dir) (sidecar := sidecar).
  revert Hok. apply Forall2_impl. intros name y. apply image_record_spec.
Qed.

(** X18: the keys of the records one shard yields are pairwise distinct,
    whatever its sidecar holds; when the sidecar is an object they are the
    first filenames of the sidecar. *)
Theorem shard_keys_distinct :
  forall (w : Runtime) (dir jp : string),
    NoDup (map fst (fst (shard_examples w dir jp))) /\
    forall sidecar,
      load_json w jp = Ok (PDict sidecar) ->
      exists n,
        map fst (fst (shard_examples w dir jp))
        = map PStr (firstn n (dict_keys sidecar)).
Proof.
  intros w dir jp.
  assert (Hdict : forall sidecar,
             load_json w jp = Ok (PDict sidecar) ->
             exists n,
               map fst (fst (shard_examples w dir jp))
               = map PStr (firstn n (dict_keys sidecar))).
  { intros sidecar Hload.
    destruct (shard_stream_prefix_keys w dir jp sidecar Hload) as [n Hn].
    now exists n. }
  split; [|exact Hdict].
  destruct (load_json w jp) as [json_data|e] eqn:Hload.
  - destruct json_data as [| b | z | f | s | l | d].
    all: try (rewrite (proj1 (shard_examples_not_object w dir jp _ Hload
                                ltac:(intros d0 H0; discriminate H0)));
              constructor).
    destruct (Hdict d eq_refl) as [n ->].
    apply NoDup_map_NoDup_ForallPairs.
    + intros a b _ _ E. now injection E.
    + apply NoDup_firstn, dict_keys_NoDup.
  - unfold shard_examples. rewrite Hload. constructor.
Qed.

Lemma shard_keys_distinct_witness :
  exists n,
    map fst (fst (shard_examples missing_b_runtime "/cache/part-000002"
                    "/cache/part-000002/part-000002.json"))
    = map PStr (firstn n (dict_keys (shard_sidecar spec_shard))).
Proof.
  apply (proj2 (shard_keys_distinct missing_b_runtime "/cache/part-000002"
                  "/cache/part-000002/part-000002.json")
               (shard_sidecar spec_shard)).
  reflexivity.
Defined.
